(** * BitEx: GDAX and Lykke interfaces and the Lykke REST backend

    A shallow embedding of [bitex/interface/gdax.py],
    [bitex/interface/lykke.py] and [bitex/api/REST/lykke.py].

    Python objects are modelled by the value type [PyVal]; keyword
    arguments and dictionaries by finite maps with string keys; a method
    that may raise and that talks to the network by a state-and-exception
    monad [Py] over the log of calls that left the process. *)

From stdpp Require Import gmap strings list fin_maps.
From Stdlib Require Import ZArith.

(** ** Python values *)

#[local] Unset Elimination Schemes.
Inductive PyVal : Type :=
  | VNone
  | VBool (b : bool)
  | VInt (z : Z)
  | VStr (s : string)
  | VList (l : list PyVal)
  | VDict (d : gmap string PyVal).
#[local] Set Elimination Schemes.

(** Keyword arguments ([**kwargs]) and dictionaries. *)
Abbreviation PyDict := (gmap string PyVal).

(** Python truthiness, as used by [x or y] and [if x:]. *)
Definition truthy (v : PyVal) : bool :=
  match v with
  | VNone => false
  | VBool b => b
  | VInt z => negb (z =? 0)%Z
  | VStr s => negb (String.eqb s "")
  | VList l => negb (Nat.eqb (length l) 0)
  | VDict d => negb (Nat.eqb (size d) 0)
  end.

(** [x is None]. *)
Definition is_none (v : PyVal) : bool :=
  match v with VNone => true | _ => false end.

(** [d.get(k)]: the value under [k], [None] when the key is absent. *)
Definition dict_get (d : PyDict) (k : string) : PyVal :=
  default VNone (d !! k).

(** ** Exceptions *)

Inductive PyExc : Type :=
  | NotImplementedError
  | IndexError
  | KeyError (k : string)
  | TypeError
  | ValueError
  | UnsupportedPairError (pair : string)
  | IncompleteCredentialsError
  | TransportError.

Inductive Outcome (A : Type) : Type :=
  | Return (a : A)
  | Raise (e : PyExc).
Arguments Return {A} a.
Arguments Raise {A} e.

Definition obind {A B} (o : Outcome A) (k : A → Outcome B) : Outcome B :=
  match o with
  | Return a => k a
  | Raise e => Raise e
  end.

(** [d[k]]: raises [KeyError] on a missing key. *)
Definition dict_getitem (d : PyDict) (k : string) : Outcome PyVal :=
  match d !! k with
  | Some v => Return v
  | None => Raise (KeyError k)
  end.

(** [d.pop(k)]: the value and the dictionary without the key. *)
Definition dict_pop (d : PyDict) (k : string) : Outcome (PyVal * PyDict) :=
  match d !! k with
  | Some v => Return (v, delete k d)
  | None => Raise (KeyError k)
  end.

(** [d.update(e)]: the entries of [e] win. *)
Definition dict_update (d e : PyDict) : PyDict := e ∪ d.

(** ** The outside world

    Everything a facade method does that can be observed from outside is an
    event of the trace: a call of [requests.request], a call of the base
    class's [request] (which the REST backend turns into an HTTP call),
    and the construction of a signature for an endpoint. *)

(** What the HTTP client hands back: [status_code] and the decoded body;
    [json_body = None] is a body [Response.json()] cannot decode. *)
Record Response : Type := mkResponse {
  status_code : Z;
  json_body : option PyVal
}.

Inductive Event : Type :=
  | Http (verb : string) (kwargs : PyDict)
    (** [requests.request(verb, **kwargs)]; a positional url is the entry
        ["url"] *)
  | ApiRequest (verb endpoint : string) (authenticate : bool) (kwargs : PyDict)
    (** [RESTInterface.request(verb, endpoint, authenticate, **kwargs)] *)
  | Signed (endpoint : string)
    (** a signature was computed for [endpoint] *).

(** Only [Http] and [ApiRequest] reach the network. *)
Definition is_network_call (ev : Event) : bool :=
  match ev with
  | Http _ _ | ApiRequest _ _ _ _ => true
  | Signed _ => false
  end.

(** The world: the trace so far and the exchange's behaviour, which answers
    a call, given the trace before it, with a response or an exception. *)
Record World : Type := mkWorld {
  trace : list Event;
  answer : list Event → Event → Outcome Response
}.

Definition extend (w : World) (evs : list Event) : World :=
  {| trace := trace w ++ evs; answer := answer w |}.

(** Computations that may raise and that act on the world. *)
Definition Py (A : Type) : Type := World → Outcome A * World.

Definition ret {A} (a : A) : Py A := fun w => (Return a, w).

Definition raise {A} (e : PyExc) : Py A := fun w => (Raise e, w).

Definition bind {A B} (m : Py A) (k : A → Py B) : Py B :=
  fun w =>
    match m w with
    | (Return a, w') => k a w'
    | (Raise e, w') => (Raise e, w')
    end.

Definition lift {A} (o : Outcome A) : Py A := fun w => (o, w).

Declare Scope py_scope.
Delimit Scope py_scope with py.
Bind Scope py_scope with Py.
Notation "x <- m ;; k" := (bind m (fun x => k))
  (at level 100, m at next level, right associativity) : py_scope.
Notation "m ;; k" := (bind m (fun _ => k))
  (at level 100, right associativity) : py_scope.
Open Scope py_scope.

(** A call that leaves the process: recorded, then answered. *)
Definition perform (ev : Event) : Py Response :=
  fun w => (answer w (trace w) ev, extend w [ev]).

(** A step that is only recorded. *)
Definition emit (ev : Event) : Py unit :=
  fun w => (Return tt, extend w [ev]).

(** [requests.request(verb, url, **kwargs)]. *)
Definition requests_request (verb url : string) (kwargs : PyDict) : Py Response :=
  perform (Http verb (<["url" := VStr url]> kwargs)).

(** Modelled from the spec: [RESTInterface.request], which is not part of
    these sources. The facade hands the call to the REST backend, which
    builds the request and has the transport execute it; here the call is
    recorded as it is made and the exchange answers it. *)
Definition RESTInterface_request
    (verb endpoint : string) (authenticate : bool) (kwargs : PyDict) : Py Response :=
  perform (ApiRequest verb endpoint authenticate kwargs).

(** [Response.json()]. *)
Definition json (r : Response) : Outcome PyVal :=
  match json_body r with
  | Some v => Return v
  | None => Raise ValueError
  end.

(** The number of network calls among some events. *)
Definition network_calls (evs : list Event) : nat :=
  length (filter (λ ev, is_network_call ev = true) evs).

(** ** [bitex.utils] and the base interface class *)

(** What a facade method hands to the formatting stage: one response
    object, or a list of them. *)
Inductive MethodResult : Type :=
  | One (r : Response)
  | Many (rs : list Response).

Definition one (m : Py Response) : Py MethodResult :=
  r <- m ;; ret (One r).

(** Modelled from the spec: the state of [RESTInterface], which is not part
    of these sources. The Pair Registry holds the set of supported pairs
    fetched for the instance and owns the mapping of a pair to the
    exchange's native syntax. *)
Record RESTInterface : Type := mkInterface {
  name : string;
  supported_pairs : list string;
  to_native : string → string
}.

Section Decorators.
Context {Canonical : Type}.

(** Modelled from the spec: the Formatted Response keeps the raw result
    next to the canonical one, which is empty when no formatter is
    registered for the method. *)
Record FormattedResponse : Type := mkFormatted {
  raw : MethodResult;
  canonical : option Canonical
}.

(** A formatter class: the formatting function of each method it knows. *)
Definition Formatter : Type := string → option (MethodResult → Canonical).

(** Modelled from the spec: [format_with] of [bitex.utils], which is not
    part of these sources. The formatting stage runs on the result of the
    call; an exception of the call passes through. *)
Definition format_with (formatter : Formatter) (method : string)
    (func : Py MethodResult) : Py FormattedResponse :=
  result <- func ;;
  ret {| raw := result; canonical := (λ f, f result) <$> formatter method |}.

(** Modelled from the spec: [check_and_format_pair] of [bitex.utils], which
    is not part of these sources. The validation stage rejects a pair that
    is not in the supported set before the method runs, and hands a
    supported pair on in native syntax. *)
Definition check_and_format_pair {A} (self : RESTInterface)
    (func : string → Py A) (pair : string) : Py A :=
  if bool_decide (pair ∈ supported_pairs self)
  then func (to_native self pair)
  else raise (UnsupportedPairError pair).
End Decorators.
Arguments FormattedResponse : clear implicits.
Arguments Formatter : clear implicits.

(** The characters of a string, each a string of length one. *)
Fixpoint chars (s : string) : list string :=
  match s with
  | EmptyString => []
  | String c s' => String c EmptyString :: chars s'
  end.

(** Iterating a value ([for x in v]): the elements of a list, the keys of a
    dictionary (here in the order of the map), the characters of a string;
    [None], booleans and numbers are not iterable. *)
Definition py_iter (v : PyVal) : Outcome (list PyVal) :=
  match v with
  | VList l => Return l
  | VDict d => Return (VStr <$> (map_to_list d).*1)
  | VStr s => Return (VStr <$> chars s)
  | VNone | VBool _ | VInt _ => Raise TypeError
  end.

(** Subscripting a value with a string ([x['id']]). *)
Definition py_getitem (x : PyVal) (k : string) : Outcome PyVal :=
  match x with
  | VDict d => dict_getitem d k
  | _ => Raise TypeError
  end.

(** A list comprehension [[f(x) for x in xs]]: the first exception ends it. *)
Fixpoint comprehension {A B} (f : A → Outcome B) (xs : list A) : Outcome (list B) :=
  match xs with
  | [] => Return []
  | x :: xs' => obind (f x) (λ y, obind (comprehension f xs') (λ ys, Return (y :: ys)))
  end.

(** ** [bitex/interface/gdax.py] *)

Module GDAX.
Section Methods.
Context {Canonical : Type} (GDAXFormattedResponse : Formatter Canonical).

(** [request] is inherited from [RESTInterface]. *)
Definition request := RESTInterface_request.

Definition _get_supported_pairs : Py (list PyVal) :=
  resp <- requests_request "GET" "https://api.gdax.com/products" ∅ ;;
  r <- lift (json resp) ;;
  xs <- lift (py_iter r) ;;
  lift (comprehension (λ x, py_getitem x "id") xs).

(** Public endpoints *)

Definition ticker_body (pair : string) (kwargs : PyDict) : Py Response :=
  request "GET" ("products/" +:+ pair +:+ "/ticker") false {["params" := VDict kwargs]}.

Definition ticker (self : RESTInterface) (pair : string) (kwargs : PyDict) :=
  check_and_format_pair self
    (λ pair, format_with GDAXFormattedResponse "ticker" (one (ticker_body pair kwargs)))
    pair.

Definition order_book_body (pair : string) (kwargs : PyDict) : Py Response :=
  request "GET" ("products/" +:+ pair +:+ "/book") false {["params" := VDict kwargs]}.

Definition order_book (self : RESTInterface) (pair : string) (kwargs : PyDict) :=
  check_and_format_pair self
    (λ pair, format_with GDAXFormattedResponse "order_book" (one (order_book_body pair kwargs)))
    pair.

Definition trades_body (pair : string) (kwargs : PyDict) : Py Response :=
  request "GET" ("products/" +:+ pair +:+ "/trades") false {["params" := VDict kwargs]}.

Definition trades (self : RESTInterface) (pair : string) (kwargs : PyDict) :=
  check_and_format_pair self
    (λ pair, format_with GDAXFormattedResponse "trades" (one (trades_body pair kwargs)))
    pair.

(** Private endpoints *)

Definition _place_order (pair : string) (price size : PyVal) (side : string)
    (kwargs : PyDict) : Py Response :=
  let params : PyDict :=
    {[ "product_id" := VStr pair; "side" := VStr side;
       "size" := size; "price" := price ]} in
  let params := dict_update params kwargs in
  request "POST" "orders" true {["json" := VDict params]}.

(** [self._place_order(pair, price, size, 'sell', **kwargs)]: [side] is
    given by position; a ['side'] among the keyword arguments of [ask] would
    give it a second value, and Python raises [TypeError] before
    [_place_order] runs. ([pair], [price] and [size] are parameters of [ask]
    itself and so never among its keyword arguments.) *)
Definition ask_body (pair : string) (price size : PyVal) (kwargs : PyDict)
    : Py Response :=
  match kwargs !! "side" with
  | Some _ => raise TypeError
  | None => _place_order pair price size "sell" kwargs
  end.

Definition ask (self : RESTInterface) (pair : string) (price size : PyVal)
    (kwargs : PyDict) :=
  check_and_format_pair self
    (λ pair, format_with GDAXFormattedResponse "ask"
               (one (ask_body pair price size kwargs)))
    pair.

(** [self._place_order(pair, price, size, 'buy', **kwargs)], bound as in
    [ask]. *)
Definition bid_body (pair : string) (price size : PyVal) (kwargs : PyDict)
    : Py Response :=
  match kwargs !! "side" with
  | Some _ => raise TypeError
  | None => _place_order pair price size "buy" kwargs
  end.

Definition bid (self : RESTInterface) (pair : string) (price size : PyVal)
    (kwargs : PyDict) :=
  check_and_format_pair self
    (λ pair, format_with GDAXFormattedResponse "bid"
               (one (bid_body pair price size kwargs)))
    pair.

(** The loop of [cancel_order]: one request per identifier, each response
    appended to [resps]. *)
Fixpoint cancel_order_loop (order_ids : list string) (kwargs : PyDict)
    (resps : list Response) : Py (list Response) :=
  match order_ids with
  | [] => ret resps
  | oid :: order_ids' =>
      r <- request "DELETE" ("orders/" +:+ oid) true {["json" := VDict kwargs]} ;;
      cancel_order_loop order_ids' kwargs (resps ++ [r])
  end.

Definition cancel_order_body (order_ids : list string) (kwargs : PyDict)
    : Py MethodResult :=
  resps <- cancel_order_loop order_ids kwargs [] ;;
  if (1 <? length resps)%nat then ret (Many resps)
  else match resps !! 0%nat with
       | Some r => ret (One r)
       | None => raise IndexError
       end.

Definition cancel_order (order_ids : list string) (kwargs : PyDict)
    : Py (FormattedResponse Canonical) :=
  format_with GDAXFormattedResponse "cancel_order" (cancel_order_body order_ids kwargs).
End Methods.
End GDAX.

(** ** [bitex/interface/lykke.py] *)

Module Lykke.
(** The instance: the public API's address next to the base class's
    state. *)
Record t : Type := mk {
  public_api : string;
  interface : RESTInterface
}.

Section Methods.
Context {Canonical : Type} (LykkeFormattedResponse : Formatter Canonical).

Definition __init__ (supported : list string) (native : string → string) : t :=
  {| public_api := "https://public-api.lykke.com/api/";
     interface := mkInterface "Lykke" supported native |}.

Definition request (verb endpoint : string) (authenticate : bool) (kwargs : PyDict)
    : Py Response :=
  RESTInterface_request verb endpoint authenticate kwargs.

(** [self.request(path, authenticate=True, params=payload)]: the one
    positional argument is bound to [verb] and [endpoint], which [request]
    requires, is not given; Python raises [TypeError] before the body of
    [request] runs. *)
Definition request_without_endpoint (verb : string) (authenticate : bool)
    (kwargs : PyDict) : Py Response :=
  raise TypeError.

Definition asset_pairs : Py Response :=
  request "GET" "AssetPairs" false ∅.

Definition _get_supported_pairs : Py (list PyVal) :=
  resp <- asset_pairs ;;
  r <- lift (json resp) ;;
  xs <- lift (py_iter r) ;;
  lift (comprehension (λ pair, py_getitem pair "Id") xs).

(** Public endpoints *)

Definition ticker_body (self : t) (pair : string) (kwargs : PyDict) : Py Response :=
  requests_request "GET" (public_api self +:+ "Market/" +:+ pair) ∅.

Definition ticker (self : t) (pair : string) (kwargs : PyDict) :=
  check_and_format_pair (interface self)
    (λ pair, format_with LykkeFormattedResponse "ticker" (one (ticker_body self pair kwargs)))
    pair.

Definition order_book_body (self : t) (pair : string) (kwargs : PyDict) : Py Response :=
  requests_request "GET" (public_api self +:+ "OrderBook/" +:+ pair)
    {["params" := VDict kwargs]}.

Definition order_book (self : t) (pair : string) (kwargs : PyDict) :=
  check_and_format_pair (interface self)
    (λ pair, format_with LykkeFormattedResponse "order_book"
               (one (order_book_body self pair kwargs)))
    pair.

Definition trades_body (self : t) (pair : string) (kwargs : PyDict) : Py Response :=
  (* 'skip' and 'take' are mandatory *)
  let kwargs :=
    if is_none (dict_get kwargs "skip")
    then dict_update kwargs {["skip" := VInt 0]} else kwargs in
  let kwargs :=
    if is_none (dict_get kwargs "take")
    then dict_update kwargs {["take" := VInt 1000]} else kwargs in
  requests_request "GET" (public_api self +:+ "Trades/" +:+ pair)
    {["params" := VDict kwargs]}.

Definition trades (self : t) (pair : string) (kwargs : PyDict) :=
  check_and_format_pair (interface self)
    (λ pair, format_with LykkeFormattedResponse "trades"
               (one (trades_body self pair kwargs)))
    pair.

(** Private endpoints *)

Definition _place_order (pair : string) (price size : PyVal) (side : string)
    (market : PyVal) (kwargs : PyDict) : Py Response :=
  raise (A := unit) NotImplementedError ;;
  let payload : PyDict := {[ "amount" := size; "price" := price ]} in
  let payload := dict_update payload kwargs in
  if truthy market
  then request_without_endpoint (side +:+ "/market/" +:+ pair +:+ "/") true
         {["params" := VDict payload]}
  else request_without_endpoint (side +:+ "/" +:+ pair +:+ "/") true
         {["params" := VDict payload]}.

(** [self._place_order(pair, price, size, 'sell', market=market, **kwargs)]:
    [side] is given by position; a ['side'] among the keyword arguments of
    [ask] would give it a second value, and Python raises [TypeError] before
    [_place_order] runs. ([pair], [price], [size] and [market] are parameters
    of [ask] itself and so never among its keyword arguments.) *)
Definition ask_body (pair : string) (price size : PyVal) (market : PyVal)
    (kwargs : PyDict) : Py Response :=
  match kwargs !! "side" with
  | Some _ => raise TypeError
  | None => _place_order pair price size "sell" market kwargs
  end.

Definition ask (self : t) (pair : string) (price size : PyVal) (market : PyVal)
    (kwargs : PyDict) :=
  check_and_format_pair (interface self)
    (λ pair, format_with LykkeFormattedResponse "ask"
               (one (ask_body pair price size market kwargs)))
    pair.

(** [self._place_order(pair, price, size, 'buy', market=market, **kwargs)],
    bound as in [ask]. *)
Definition bid_body (pair : string) (price size : PyVal) (market : PyVal)
    (kwargs : PyDict) : Py Response :=
  match kwargs !! "side" with
  | Some _ => raise TypeError
  | None => _place_order pair price size "buy" market kwargs
  end.

Definition bid (self : t) (pair : string) (price size : PyVal) (market : PyVal)
    (kwargs : PyDict) :=
  check_and_format_pair (interface self)
    (λ pair, format_with LykkeFormattedResponse "bid"
               (one (bid_body pair price size market kwargs)))
    pair.

Definition order_status_body (order_id : string) (kwargs : PyDict) : Py Response :=
  raise (A := unit) NotImplementedError ;;
  let payload : PyDict := {[ "id" := VStr order_id ]} in
  let payload := dict_update payload kwargs in
  request_without_endpoint "api/order_status/" true {["params" := VDict payload]}.

Definition order_status (order_id : string) (kwargs : PyDict) :=
  format_with LykkeFormattedResponse "order_status"
    (one (order_status_body order_id kwargs)).

(** The loop of [cancel_order]; [payload] is the one dictionary all
    iterations update. *)
Fixpoint cancel_order_loop (order_ids : list string) (payload : PyDict)
    (results : list Response) : Py (list Response) :=
  match order_ids with
  | [] => ret results
  | oid :: order_ids' =>
      let payload := dict_update payload {["id" := VStr oid]} in
      r <- request_without_endpoint "cancel_order/" true {["params" := VDict payload]} ;;
      cancel_order_loop order_ids' payload (results ++ [r])
  end.

Definition cancel_order_body (order_ids : list string) (kwargs : PyDict)
    : Py MethodResult :=
  raise (A := unit) NotImplementedError ;;
  results <- cancel_order_loop order_ids kwargs [] ;;
  if (1 <? length results)%nat then ret (Many results)
  else match results !! 0%nat with
       | Some r => ret (One r)
       | None => raise IndexError
       end.

Definition cancel_order (order_ids : list string) (kwargs : PyDict) :=
  format_with LykkeFormattedResponse "cancel_order" (cancel_order_body order_ids kwargs).
End Methods.
End Lykke.

(** ** [bitex/api/REST/lykke.py] *)

(** [o or d] for an optional string: [None] and the empty string are
    falsy. *)
Definition str_or (o : option string) (d : string) : string :=
  match o with
  | Some s => if String.eqb s "" then d else s
  | None => d
  end.

Definition nonempty (o : option string) : bool :=
  match o with
  | Some s => negb (String.eqb s "")
  | None => false
  end.

(** An optional string as a Python value. *)
Definition py_of_option (o : option string) : PyVal :=
  match o with
  | Some s => VStr s
  | None => VNone
  end.

(** Modelled from the spec: the state of the base class [RESTAPI], which is
    not part of these sources: the Credential Store, a data holder for the
    key and the secret, next to the address, version and timeout the
    constructor is given. Loading [config] is left to a collaborator. *)
Record RESTAPI : Type := mkRESTAPI {
  addr : option string;
  version : option string;
  key : option string;
  secret : option string;
  timeout : Z;
  config : option string
}.

(** Modelled from the spec: [RESTAPI.__init__], which is not part of these
    sources, stores what it is given. *)
Definition RESTAPI_init (addr version key secret : option string) (timeout : Z)
    (config : option string) : RESTAPI :=
  mkRESTAPI addr version key secret timeout config.

(** Modelled from the spec: [configured()] of the Credential Store is true
    iff key and secret are both non-empty. *)
Definition configured (self : RESTAPI) : bool :=
  nonempty (key self) && nonempty (secret self).

(** Modelled from the spec: [RESTAPI.check_auth_requirements], which is not
    part of these sources, fails when the credentials are not configured. *)
Definition RESTAPI_check_auth_requirements (self : RESTAPI) : Outcome unit :=
  if configured self then Return tt else Raise IncompleteCredentialsError.

(** Modelled from the spec: the generic request assembly of
    [RESTAPI.sign_request_kwargs], which is not part of these sources: the
    url of the endpoint and empty header, query and body slots, overwritten
    by the caller's keyword arguments. The methods of [LykkeREST] take the
    base class's method as a parameter; this one instantiates it. *)
Definition generic_sign_request_kwargs (self : RESTAPI) (endpoint : string)
    (kwargs : PyDict) : Outcome PyDict :=
  let template : PyDict :=
    {[ "url" := VStr (default "" (addr self) +:+ "/" +:+ endpoint);
       "headers" := VDict ∅; "params" := VDict ∅; "data" := VDict ∅ ]} in
  Return (dict_update template kwargs).

Module LykkeREST.
Definition __init__ (addr key secret version : option string) (timeout : Z)
    (config : option string) : RESTAPI :=
  let addr := str_or addr "https://hft-api.lykke.com/api" in
  (* The Lykke Wallet/HFT APIs need just a key *)
  let secret := str_or secret "not applicable" in
  RESTAPI_init (Some addr) version key (Some secret) timeout config.

(** [try: super().check_auth_requirements()
     except IncompleteCredentialsError: raise] *)
Definition check_auth_requirements (self : RESTAPI) : Outcome unit :=
  match RESTAPI_check_auth_requirements self with
  | Raise IncompleteCredentialsError => Raise IncompleteCredentialsError
  | o => o
  end.

Section Signing.
(** [super().sign_request_kwargs] *)
Variable RESTAPI_sign_request_kwargs : RESTAPI → string → PyDict → Outcome PyDict.

Definition sign_request_kwargs (self : RESTAPI) (endpoint : string)
    (kwargs : PyDict) : Outcome PyDict :=
  obind (RESTAPI_sign_request_kwargs self endpoint kwargs) (λ req_kwargs,
  let req_kwargs :=
    <["headers" := VDict {["api-key" := py_of_option (key self)]}]> req_kwargs in
  (* Parameters go into the data kwarg, so move it there from 'params' *)
  obind (dict_pop req_kwargs "params") (λ '(params, req_kwargs),
  obind (if truthy params then Return params else dict_getitem req_kwargs "data")
    (λ data,
  let req_kwargs := <["data" := data]> req_kwargs in
  Return req_kwargs))).

(** Modelled from the spec: [RESTAPI.private_query], which is not part of
    these sources. A request that requires authentication checks the
    credentials first, then signs, then hands the signed request to the
    transport. *)
Definition private_query (self : RESTAPI) (verb endpoint : string)
    (kwargs : PyDict) : Py Response :=
  lift (check_auth_requirements self) ;;
  emit (Signed endpoint) ;;
  req_kwargs <- lift (sign_request_kwargs self endpoint kwargs) ;;
  perform (Http verb req_kwargs).
End Signing.
End LykkeREST.

(** ** The other methods of [bitex/interface/gdax.py] *)

Module GDAX_endpoints.
Section Methods.
Context {Canonical : Type} (GDAXFormattedResponse : Formatter Canonical).

(** [str.upper] of the Python runtime. *)
Variable str_upper : string → string.

Definition order_status_body (order_id : string) (kwargs : PyDict) : Py Response :=
  GDAX.request "GET" ("orders/" +:+ order_id) true {["json" := VDict kwargs]}.

Definition order_status (order_id : string) (kwargs : PyDict) :=
  format_with GDAXFormattedResponse "order_status"
    (one (order_status_body order_id kwargs)).

Definition open_orders_body (kwargs : PyDict) : Py Response :=
  GDAX.request "GET" "orders" true {["json" := VDict kwargs]}.

Definition open_orders (kwargs : PyDict) :=
  format_with GDAXFormattedResponse "open_orders" (one (open_orders_body kwargs)).

Definition wallet_body (kwargs : PyDict) : Py Response :=
  GDAX.request "GET" "accounts" true {["json" := VDict kwargs]}.

Definition wallet (kwargs : PyDict) :=
  format_with GDAXFormattedResponse "wallet" (one (wallet_body kwargs)).

(** Exchange specific methods *)

Definition account (account_id : string) : Py Response :=
  GDAX.request "GET" ("accounts/" +:+ account_id) true ∅.

Definition account_history (account_id : string) (kwargs : PyDict) : Py Response :=
  GDAX.request "GET" ("accounts/" +:+ account_id +:+ "/ledger") true
    {["json" := VDict kwargs]}.

Definition account_holds (account_id : string) (kwargs : PyDict) : Py Response :=
  GDAX.request "GET" ("accounts/" +:+ account_id +:+ "/holds") true
    {["json" := VDict kwargs]}.

Definition fills (kwargs : PyDict) : Py Response :=
  GDAX.request "GET" "fills" true {["json" := VDict kwargs]}.

Definition deposit_from_payment_method (amount : PyVal) (currency : string)
    (payment_method_id : PyVal) (kwargs : PyDict) : Py Response :=
  let kwargs :=
    dict_update kwargs
      {[ "amount" := amount; "currency" := VStr (str_upper currency);
         "payment_method_id" := payment_method_id ]} in
  GDAX.request "POST" "deposits/payment-method" true ∅.

Definition deposit_from_coinbase (amount : PyVal) (currency : string)
    (coinbase_account_id : PyVal) (kwargs : PyDict) : Py Response :=
  let kwargs :=
    dict_update kwargs
      {[ "amount" := amount; "currency" := VStr (str_upper currency);
         "coinbase_account_id" := coinbase_account_id ]} in
  GDAX.request "POST" "deposits/coinbase-account" true ∅.

Definition withdraw_to_payment_method (amount : PyVal) (currency : string)
    (payment_method_id : PyVal) (kwargs : PyDict) : Py Response :=
  let kwargs :=
    dict_update kwargs
      {[ "amount" := amount; "currency" := VStr (str_upper currency);
         "payment_method_id" := payment_method_id ]} in
  GDAX.request "POST" "withdrawals/payment-method" true ∅.

Definition withdraw_to_coinbase (amount : PyVal) (currency : string)
    (coinbase_account_id : PyVal) (kwargs : PyDict) : Py Response :=
  let kwargs :=
    dict_update kwargs
      {[ "amount" := amount; "currency" := VStr (str_upper currency);
         "coinbase_account_id" := coinbase_account_id ]} in
  GDAX.request "POST" "withdrawals/coinbase-account" true ∅.

Definition withdraw (amount : PyVal) (currency : string) (address : PyVal)
    (address_tag : PyVal) (kwargs : PyDict) : Py Response :=
  let kwargs :=
    dict_update kwargs
      {[ "amount" := amount; "currency" := VStr (str_upper currency);
         "crypto_address" := address ]} in
  GDAX.request "POST" "withdrawals/crypto" true {["json" := VDict kwargs]}.

Definition payment_methods : Py Response :=
  GDAX.request "GET" "payment-methods" true ∅.

Definition coinbase_accounts : Py Response :=
  GDAX.request "GET" "coinbase-accounts" true ∅.

Definition trailing_volume : Py Response :=
  GDAX.request "GET" "users/self/trailing-volume" true ∅.
End Methods.
End GDAX_endpoints.

(** ** The other methods of [bitex/interface/lykke.py] *)

Module Lykke_endpoints.
Section Methods.
Context {Canonical : Type} (LykkeFormattedResponse : Formatter Canonical).

Definition wallet_body (kwargs : PyDict) : Py Response :=
  Lykke.request "GET" "Wallets" true {["params" := VDict kwargs]}.

Definition wallet (kwargs : PyDict) :=
  format_with LykkeFormattedResponse "wallet" (one (wallet_body kwargs)).

(** Public API *)

Definition assets (self : Lykke.t) : Py Response :=
  requests_request "GET" (Lykke.public_api self +:+ "Assets/dictionary") ∅.

(** HFT API *)

Definition orders (status : PyVal) (kwargs : PyDict) : Py Response :=
  let kwargs :=
    if truthy status then dict_update kwargs {["status" := status]} else kwargs in
  Lykke.request "GET" "Orders" true {["params" := VDict kwargs]}.

(** [self.orders('InOrderBook', **kwargs)]: [status] is given by position;
    a ['status'] among the keyword arguments would give it a second value,
    and Python raises [TypeError] before [orders] runs. *)
Definition open_orders_body (kwargs : PyDict) : Py Response :=
  match kwargs !! "status" with
  | Some _ => raise TypeError
  | None => orders (VStr "InOrderBook") kwargs
  end.

Definition open_orders (kwargs : PyDict) :=
  format_with LykkeFormattedResponse "open_orders" (one (open_orders_body kwargs)).

Definition trade_history (kwargs : PyDict) : Py Response :=
  Lykke.request "GET" "History/trades" true {["params" := VDict kwargs]}.
End Methods.
End Lykke_endpoints.

(** ** Vocabulary of the statements *)

(** The exchange answers the calls [evs], made one after the other from the
    world [w], with the responses [rs]: none of them raises. *)
Fixpoint answers (w : World) (evs : list Event) (rs : list Response) : Prop :=
  match evs, rs with
  | [], [] => True
  | ev :: evs', r :: rs' =>
      answer w (trace w) ev = Return r ∧ answers (extend w [ev]) evs' rs'
  | _, _ => False
  end.

(** The request [GDAX.cancel_order] issues for one identifier. *)
Definition delete_request (kwargs : PyDict) (oid : string) : Event :=
  ApiRequest "DELETE" ("orders/" +:+ oid) true {["json" := VDict kwargs]}.




(** The exception an element [x] of the answer raises when [x[field]] finds
    no such field: [KeyError] on an object, [TypeError] on anything else. *)
Definition missing_field_error (field : string) (x : PyVal) : PyExc :=
  match x with
  | VDict _ => KeyError field
  | _ => TypeError
  end.

(** A computation that raises [e] and leaves the world as it found it: no
    request, no signature. *)
Definition fails_untouched {A} (m : Py A) (e : PyExc) : Prop :=
  ∀ w, m w = (Raise e, w).

(** The events a computation adds to the trace of [w]. *)
Definition events_of {A} (m : Py A) (w : World) : list Event :=
  drop (length (trace w)) (trace (snd (m w))).

(** [x] is a JSON object whose field [field] is [i]. *)
Definition has_field (field : string) (x i : PyVal) : Prop :=
  ∃ d, x = VDict d ∧ d !! field = Some i.

(** The same instance with another secret. *)
Definition with_secret (self : RESTAPI) (s : option string) : RESTAPI :=
  mkRESTAPI (addr self) (version self) (key self) s (timeout self) (config self).

(** A computation whose only effect on the world, whatever the exchange
    answers, is the one event [ev]. *)
Definition issues_only {A} (m : Py A) (ev : Event) : Prop :=
  ∀ w, snd (m w) = extend w [ev].

(** A call of the REST backend that asks for authentication. *)
Definition authenticated (ev : Event) : bool :=
  match ev with
  | ApiRequest _ _ authenticate _ => authenticate
  | _ => false
  end.

(** A value that is not a list and still iterates to nothing. *)
Definition iterates_to_nothing (v : PyVal) : bool :=
  match v with
  | VDict d => Nat.eqb (size d) 0
  | VStr s => String.eqb s ""
  | _ => false
  end.

(** The request [GDAX._get_supported_pairs] issues. *)
Definition gdax_products_request : Event :=
  Http "GET" (<["url" := VStr "https://api.gdax.com/products"]> ∅).

(** The request [Lykke._get_supported_pairs] issues. *)
Definition lykke_asset_pairs_request : Event :=
  ApiRequest "GET" "AssetPairs" false ∅.

(** A computation that issues exactly one request, to the REST backend and
    with authentication asked for. *)
Definition one_authenticated_request {A} (m : Py A) : Prop :=
  ∃ ev, issues_only m ev ∧ authenticated ev = true.

(** A computation that issues exactly one request, a GET of [url] sent
    straight to the HTTP client with the query parameters [params] ([None]:
    no ['params'] at all) and without headers. *)
Definition one_direct_get {A} (m : Py A) (url : string) (params : option PyVal)
    : Prop :=
  ∃ kwargs : PyDict,
    issues_only m (Http "GET" kwargs)
    ∧ kwargs !! "url" = Some (VStr url)
    ∧ kwargs !! "params" = params
    ∧ kwargs !! "headers" = None.

(** ** Fixtures for the concrete instances *)

Definition ok_response : Response := mkResponse 200 (Some (VDict ∅)).

Definition error_response : Response :=
  mkResponse 400 (Some (VDict {["message" := VStr "order not found"]})).

(** An exchange that accepts every request. *)
Definition agreeable : World :=
  {| trace := []; answer := λ _ _, Return ok_response |}.



(** A formatter class without any formatter. *)
Definition no_formatter : Formatter unit := λ _, None.

(** The products of an exchange with two pairs, in GDAX's and in Lykke's
    format. *)
Definition two_products (field : string) (a b : string) : Response :=
  mkResponse 200
    (Some (VList [VDict {[field := VStr a; "status" := VStr "online"]};
                  VDict {[field := VStr b]}])).


(** An exchange whose connection drops at the second request. *)
Definition drops_second : World :=
  {| trace := [];
     answer := λ tr _, if (length tr <? 1)%nat then Return ok_response
                       else Raise TransportError |}.

(** An assembly that hands the keyword arguments back as they are, without
    the slots of a request. *)
Definition bare_assembly (self : RESTAPI) (endpoint : string) (kwargs : PyDict)
    : Outcome PyDict :=
  Return kwargs.

(** * Properties *)

(** Membership in a concrete list, decided by evaluation. *)
Ltac by_evaluation :=
  lazymatch goal with
  | |- _ ∉ _ => apply (bool_decide_eq_false_1 _); vm_compute; reflexivity
  | |- _ => apply (bool_decide_unpack _); vm_compute; exact I
  end.

(** ** The monad and the world *)

Lemma extend_nil w : extend w [] = w.
Proof. destruct w. unfold extend. simpl. by rewrite app_nil_r. Qed.

Lemma extend_extend w evs1 evs2 :
  extend (extend w evs1) evs2 = extend w (evs1 ++ evs2).
Proof. unfold extend. simpl. by rewrite app_assoc. Qed.

Lemma raise_bind {A B} (e : PyExc) (k : A → Py B) w :
  (x <- raise e ;; k x) w = (Raise e, w).
Proof. reflexivity. Qed.

Lemma bind_returns {A B} (m : Py A) (k : A → Py B) w a w' :
  m w = (Return a, w') → (x <- m ;; k x) w = k a w'.
Proof. intros Hm. unfold bind. by rewrite Hm. Qed.

Lemma bind_raises {A B} (m : Py A) (k : A → Py B) w e w' :
  m w = (Raise e, w') → (x <- m ;; k x) w = (Raise e, w').
Proof. intros Hm. unfold bind. by rewrite Hm. Qed.

Lemma events_of_extend {A} (m : Py A) w o evs :
  m w = (o, extend w evs) → events_of m w = evs.
Proof.
  intros Hm. unfold events_of. rewrite Hm. simpl. by rewrite drop_app_length.
Qed.

(** A computation that fails and leaves the world untouched made no network
    call. *)
Lemma fails_untouched_no_network_call {A} (m : Py A) (e : PyExc) (w : World) :
  fails_untouched m e → network_calls (events_of m w) = 0.
Proof.
  intros Hm. rewrite (events_of_extend m w (Raise e) []); [done|].
  by rewrite Hm, extend_nil.
Qed.

Lemma answers_length w evs rs : answers w evs rs → length rs = length evs.
Proof.
  revert w rs. induction evs as [|ev evs IH]; intros w [|r rs]; simpl; try done.
  intros [_ Hrest]. f_equal. by eapply IH.
Qed.

(** ** [GDAX.cancel_order] *)

Section GDAX_cancel.
Context {Canonical : Type} (F : Formatter Canonical).

(** The loop issues the requests of the identifiers in order and appends
    their responses. *)
Lemma cancel_order_loop_answers ids kwargs resps w rs :
  answers w (delete_request kwargs <$> ids) rs →
  GDAX.cancel_order_loop ids kwargs resps w
  = (Return (resps ++ rs), extend w (delete_request kwargs <$> ids)).
Proof.
  revert resps w rs. induction ids as [|oid ids IH]; intros resps w rs.
  - destruct rs; [|done]. intros _. simpl. by rewrite app_nil_r, extend_nil.
  - destruct rs as [|r rs]; [done|]. simpl. intros [Hr Hrest].
    unfold bind, GDAX.request, RESTInterface_request, perform.
    fold (delete_request kwargs oid). rewrite Hr.
    rewrite (IH _ _ _ Hrest), extend_extend. by rewrite <- app_assoc.
Qed.

(** A request that raises ends the loop: the later identifiers are not
    attempted. *)
Lemma cancel_order_loop_raises oid ids kwargs resps w e :
  answer w (trace w) (delete_request kwargs oid) = Raise e →
  GDAX.cancel_order_loop (oid :: ids) kwargs resps w
  = (Raise e, extend w [delete_request kwargs oid]).
Proof.
  intros He. simpl. unfold bind, GDAX.request, RESTInterface_request, perform.
  fold (delete_request kwargs oid). by rewrite He.
Qed.

Lemma cancel_order_body_answers ids kwargs w rs :
  answers w (delete_request kwargs <$> ids) rs →
  GDAX.cancel_order_body ids kwargs w
  = (match rs with
     | [] => Raise IndexError
     | [r] => Return (One r)
     | _ => Return (Many rs)
     end, extend w (delete_request kwargs <$> ids)).
Proof.
  intros Hrs. unfold GDAX.cancel_order_body.
  rewrite (bind_returns _ _ _ _ _ (cancel_order_loop_answers ids kwargs [] w rs Hrs)).
  simpl. by destruct rs as [|r [|r' rs]].
Qed.
End GDAX_cancel.

(** C2, as the code has it. A call of [GDAX.cancel_order] with [n >= 1]
    identifiers, each of whose requests returns a response, issues exactly
    the DELETE requests of the identifiers, one each and in input order, and
    returns: for [n > 1] the list of the [n] responses in input order, for
    [n = 1] the one response itself, not a list. *)
Theorem cancel_order_one_delete_per_id
    {Canonical : Type} (F : Formatter Canonical)
    (ids : list string) (kwargs : PyDict) (w : World) (rs : list Response) :
  1 ≤ length ids →
  answers w (delete_request kwargs <$> ids) rs →
  ∃ res,
    GDAX.cancel_order F ids kwargs w
    = (Return res, extend w (delete_request kwargs <$> ids))
    ∧ length rs = length ids
    ∧ (1 < length ids → raw res = Many rs)
    ∧ (length ids = 1 → ∃ r, rs = [r] ∧ raw res = One r).
Proof.
  intros Hn Hrs.
  pose proof (answers_length _ _ _ Hrs) as Hlen. rewrite length_fmap in Hlen.
  pose proof (cancel_order_body_answers ids kwargs w rs Hrs) as Hbody.
  unfold GDAX.cancel_order, format_with.
  destruct rs as [|r [|r' rs]].
  - simpl in Hlen. lia.
  - eexists. rewrite (bind_returns _ _ _ _ _ Hbody). split; [reflexivity|].
    split; [done|]. split.
    + simpl in Hlen. lia.
    + intros _. by exists r.
  - eexists. rewrite (bind_returns _ _ _ _ _ Hbody). split; [reflexivity|].
    split; [done|]. split.
    + done.
    + simpl in Hlen. lia.
Qed.

Lemma cancel_order_one_delete_per_id_witness :
  1 ≤ length ["a"; "c"]
  ∧ answers agreeable (delete_request ∅ <$> ["a"; "c"]) [ok_response; ok_response]
  ∧ ∃ res,
      GDAX.cancel_order no_formatter ["a"; "c"] ∅ agreeable
      = (Return res, extend agreeable (delete_request ∅ <$> ["a"; "c"]))
      ∧ length [ok_response; ok_response] = length ["a"; "c"]
      ∧ (1 < length ["a"; "c"] → raw res = Many [ok_response; ok_response])
      ∧ (length ["a"; "c"] = 1 →
         ∃ r, [ok_response; ok_response] = [r] ∧ raw res = One r).
Proof.
  assert (H1 : 1 ≤ length ["a"; "c"]) by (simpl; lia).
  assert (H2 : answers agreeable (delete_request ∅ <$> ["a"; "c"])
                 [ok_response; ok_response]) by (simpl; repeat split; reflexivity).
  split; [exact H1|]. split; [exact H2|].
  exact (cancel_order_one_delete_per_id no_formatter ["a"; "c"] ∅ agreeable
           [ok_response; ok_response] H1 H2).
Defined.

(** C2, as the spec has it, fails when a request raises: of three
    identifiers only the first two are requested, and the call returns
    nothing. *)
Lemma cancel_order_raising_request_ends_batch :
  GDAX.cancel_order no_formatter ["a"; "b"; "c"] ∅ drops_second
  = (Raise TransportError, extend drops_second (delete_request ∅ <$> ["a"; "b"]))
  ∧ length (events_of (GDAX.cancel_order no_formatter ["a"; "b"; "c"] ∅)
              drops_second) = 2
  ∧ ∀ res, fst (GDAX.cancel_order no_formatter ["a"; "b"; "c"] ∅ drops_second)
           ≠ Return res.
Proof.
  split; [reflexivity|]. split; [reflexivity|].
  intros res. vm_compute. discriminate.
Qed.

(** One identifier: the response comes back as it is. *)
Example cancel_order_single :
  GDAX.cancel_order no_formatter ["a"] ∅ agreeable
  = (Return {| raw := One ok_response; canonical := None |},
     extend agreeable [delete_request ∅ "a"]).
Proof. reflexivity. Qed.

(** A request that raises ends the batch: the identifiers after it are not
    attempted. *)
Example cancel_order_transport_failure :
  let down := {| trace := []; answer := λ _ _, Raise TransportError |} in
  GDAX.cancel_order no_formatter ["a"; "b"] ∅ down
  = (Raise TransportError, extend down [delete_request ∅ "a"]).
Proof. reflexivity. Qed.




(** C10. [GDAX.cancel_order] without any identifier issues no request and
    raises [IndexError]: [resps] is empty and [resps[0]] is evaluated. *)
Theorem cancel_order_no_ids_index_error
    {Canonical : Type} (F : Formatter Canonical) (kwargs : PyDict) :
  fails_untouched (GDAX.cancel_order F [] kwargs) IndexError.
Proof. intros w. reflexivity. Qed.

(** ** Pair validation *)

Lemma check_and_format_pair_unsupported {A} (self : RESTInterface)
    (func : string → Py A) (pair : string) :
  pair ∉ supported_pairs self →
  fails_untouched (check_and_format_pair self func pair) (UnsupportedPairError pair).
Proof.
  intros Hpair w. unfold check_and_format_pair.
  by rewrite (bool_decide_eq_false_2 _ Hpair).
Qed.

Lemma check_and_format_pair_supported {A} (self : RESTInterface)
    (func : string → Py A) (pair : string) :
  pair ∈ supported_pairs self →
  check_and_format_pair self func pair = func (to_native self pair).
Proof.
  intros Hpair. unfold check_and_format_pair.
  by rewrite (bool_decide_eq_true_2 _ Hpair).
Qed.

(** An exception of the method passes through the formatting stage. *)
Lemma format_with_raises {Canonical : Type} (F : Formatter Canonical)
    (method : string) (func : Py MethodResult) (e : PyExc) :
  fails_untouched func e → fails_untouched (format_with F method func) e.
Proof.
  intros Hfunc w. unfold format_with. by rewrite (bind_raises _ _ _ _ _ (Hfunc w)).
Qed.

Lemma one_raises (m : Py Response) (e : PyExc) :
  fails_untouched m e → fails_untouched (one m) e.
Proof.
  intros Hm w. unfold one. by rewrite (bind_raises _ _ _ _ _ (Hm w)).
Qed.

(** C1. A pair that is not in the fetched set of supported pairs makes
    every public method that takes a pair ([ticker], [order_book], [trades],
    [ask], [bid], of GDAX and of Lykke) fail with [UnsupportedPairError];
    the world is left as it was, so no request is built and no network call
    is made. *)
Theorem unsupported_pair_rejected
    {Canonical : Type} (FG FL : Formatter Canonical)
    (gdax : RESTInterface) (lykke : Lykke.t)
    (P : string) (price size market : PyVal) (kwargs : PyDict) :
  P ∉ supported_pairs gdax →
  P ∉ supported_pairs (Lykke.interface lykke) →
  (fails_untouched (GDAX.ticker FG gdax P kwargs) (UnsupportedPairError P)
   ∧ fails_untouched (GDAX.order_book FG gdax P kwargs) (UnsupportedPairError P)
   ∧ fails_untouched (GDAX.trades FG gdax P kwargs) (UnsupportedPairError P)
   ∧ fails_untouched (GDAX.ask FG gdax P price size kwargs) (UnsupportedPairError P)
   ∧ fails_untouched (GDAX.bid FG gdax P price size kwargs) (UnsupportedPairError P))
  ∧ (fails_untouched (Lykke.ticker FL lykke P kwargs) (UnsupportedPairError P)
     ∧ fails_untouched (Lykke.order_book FL lykke P kwargs) (UnsupportedPairError P)
     ∧ fails_untouched (Lykke.trades FL lykke P kwargs) (UnsupportedPairError P)
     ∧ fails_untouched (Lykke.ask FL lykke P price size market kwargs)
         (UnsupportedPairError P)
     ∧ fails_untouched (Lykke.bid FL lykke P price size market kwargs)
         (UnsupportedPairError P)).
Proof.
  intros HG HL.
  split; repeat split; by apply check_and_format_pair_unsupported.
Qed.

Lemma unsupported_pair_rejected_witness :
  let gdax := mkInterface "GDAX" ["BTC-USD"; "ETH-USD"] id in
  let lykke := Lykke.__init__ ["BTCUSD"] id in
  GDAX.bid no_formatter gdax "FOO-BAR" (VInt 1) (VInt 2) ∅ agreeable
  = (Raise (UnsupportedPairError "FOO-BAR"), agreeable)
  ∧ Lykke.ticker no_formatter lykke "FOO-BAR" ∅ agreeable
    = (Raise (UnsupportedPairError "FOO-BAR"), agreeable).
Proof.
  assert (HG : "FOO-BAR" ∉ supported_pairs (mkInterface "GDAX" ["BTC-USD"; "ETH-USD"] id))
    by by_evaluation.
  assert (HL : "FOO-BAR" ∉ supported_pairs (Lykke.interface (Lykke.__init__ ["BTCUSD"] id)))
    by by_evaluation.
  pose proof (unsupported_pair_rejected no_formatter no_formatter _ _ "FOO-BAR"
                (VInt 1) (VInt 2) (VBool false) ∅ HG HL) as [HGDAX HLykke].
  split.
  - apply HGDAX.
  - apply HLykke.
Defined.

(** A supported pair reaches the method: one request is issued. *)
Example gdax_ticker_supported :
  let gdax := mkInterface "GDAX" ["BTC-USD"; "ETH-USD"] id in
  GDAX.ticker no_formatter gdax "BTC-USD" ∅ agreeable
  = (Return {| raw := One ok_response; canonical := None |},
     extend agreeable [ApiRequest "GET" "products/BTC-USD/ticker" false
                         {["params" := VDict ∅]}]).
Proof. vm_compute. reflexivity. Qed.

(** ** The stubs of the Lykke interface *)

(** C4, as the code has it. Order placement, order status and order
    cancellation of the Lykke interface issue no request and leave the world
    as it was. [_place_order], [order_status] and [cancel_order] raise
    [NotImplementedError] on every input, and the code after the [raise] is
    never run: neither its requests nor its exceptions appear. [ask] and
    [bid] for a supported pair raise [NotImplementedError] as well, unless
    the caller passes a keyword argument ['side']: then the call of
    [_place_order] binds [side] twice and raises [TypeError] before its body
    is entered. *)
Theorem lykke_orders_not_implemented
    {Canonical : Type} (F : Formatter Canonical) (self : Lykke.t)
    (pair p side order_id : string) (order_ids : list string)
    (price size market : PyVal) (kwargs : PyDict) :
  pair ∈ supported_pairs (Lykke.interface self) →
  fails_untouched (Lykke._place_order p price size side market kwargs)
    NotImplementedError
  ∧ (kwargs !! "side" = None →
     fails_untouched (Lykke.ask F self pair price size market kwargs)
       NotImplementedError
     ∧ fails_untouched (Lykke.bid F self pair price size market kwargs)
         NotImplementedError)
  ∧ (is_Some (kwargs !! "side") →
     fails_untouched (Lykke.ask F self pair price size market kwargs) TypeError
     ∧ fails_untouched (Lykke.bid F self pair price size market kwargs) TypeError)
  ∧ fails_untouched (Lykke.order_status F order_id kwargs) NotImplementedError
  ∧ fails_untouched (Lykke.cancel_order F order_ids kwargs) NotImplementedError.
Proof.
  intros Hpair.
  assert (Hplace : ∀ q s, fails_untouched
                     (Lykke._place_order q price size s market kwargs)
                     NotImplementedError).
  { intros q s w. unfold Lykke._place_order. apply raise_bind. }
  split; [apply Hplace|].
  split.
  { intros Hside. unfold Lykke.ask, Lykke.bid.
    rewrite !(check_and_format_pair_supported _ _ _ Hpair).
    split; apply format_with_raises, one_raises; intros w.
    - unfold Lykke.ask_body. rewrite Hside. apply Hplace.
    - unfold Lykke.bid_body. rewrite Hside. apply Hplace. }
  split.
  { intros [v Hside]. unfold Lykke.ask, Lykke.bid.
    rewrite !(check_and_format_pair_supported _ _ _ Hpair).
    split; apply format_with_raises, one_raises; intros w.
    - unfold Lykke.ask_body. by rewrite Hside.
    - unfold Lykke.bid_body. by rewrite Hside. }
  split.
  - apply format_with_raises, one_raises. intros w.
    unfold Lykke.order_status_body. apply raise_bind.
  - apply format_with_raises. intros w.
    unfold Lykke.cancel_order_body. apply raise_bind.
Qed.

Lemma lykke_orders_not_implemented_witness :
  let self := Lykke.__init__ ["BTCUSD"; "ETHUSD"] id in
  Lykke.ask no_formatter self "BTCUSD" (VInt 9000) (VInt 1) (VBool false) ∅ agreeable
  = (Raise NotImplementedError, agreeable)
  ∧ Lykke.cancel_order no_formatter ["a"; "b"] ∅ agreeable
    = (Raise NotImplementedError, agreeable).
Proof.
  assert (Hpair : "BTCUSD" ∈ supported_pairs
                    (Lykke.interface (Lykke.__init__ ["BTCUSD"; "ETHUSD"] id)))
    by by_evaluation.
  pose proof (lykke_orders_not_implemented no_formatter
                (Lykke.__init__ ["BTCUSD"; "ETHUSD"] id)
                "BTCUSD" "BTCUSD" "sell" "a" ["a"; "b"]
                (VInt 9000) (VInt 1) (VBool false) ∅ Hpair)
    as (_ & Hask & _ & _ & Hcancel).
  split.
  - apply Hask. reflexivity.
  - apply Hcancel.
Defined.

(** C4, as the spec has it, fails on [ask] (and [bid]) when the caller
    passes a keyword argument ['side']: the call raises [TypeError], not
    [NotImplementedError]. *)
Lemma lykke_ask_side_keyword_type_error :
  let self := Lykke.__init__ ["BTCUSD"; "ETHUSD"] id in
  Lykke.ask no_formatter self "BTCUSD" (VInt 9000) (VInt 1) (VBool false)
    {["side" := VStr "buy"]} agreeable
  = (Raise TypeError, agreeable)
  ∧ Lykke.ask no_formatter self "BTCUSD" (VInt 9000) (VInt 1) (VBool false)
      {["side" := VStr "buy"]} agreeable
    ≠ (Raise NotImplementedError, agreeable).
Proof.
  split.
  - vm_compute. reflexivity.
  - vm_compute. discriminate.
Qed.

(** ** Fetching the supported pairs *)

Lemma comprehension_fields (field : string) (xs ids : list PyVal) :
  Forall2 (has_field field) xs ids →
  comprehension (λ x, py_getitem x field) xs = Return ids.
Proof.
  induction 1 as [|x i xs ids (d & -> & Hd) _ IH]; simpl; [done|].
  unfold dict_getitem. rewrite Hd. simpl. by rewrite IH.
Qed.

(** C8. The fetch of the supported pairs issues one GET and reads the
    identifiers off the JSON array of the answer: [GDAX._get_supported_pairs]
    asks the products endpoint and returns the ['id'] field of every element,
    [Lykke._get_supported_pairs] asks the AssetPairs endpoint and returns the
    ['Id'] field of every element. *)
Theorem get_supported_pairs_extracts_ids
    (w : World) (resp : Response) (xs ids : list PyVal) :
  json_body resp = Some (VList xs) →
  (answer w (trace w)
     (Http "GET" (<["url" := VStr "https://api.gdax.com/products"]> ∅)) = Return resp →
   Forall2 (has_field "id") xs ids →
   GDAX._get_supported_pairs w
   = (Return ids,
      extend w [Http "GET" (<["url" := VStr "https://api.gdax.com/products"]> ∅)]))
  ∧ (answer w (trace w) (ApiRequest "GET" "AssetPairs" false ∅) = Return resp →
     Forall2 (has_field "Id") xs ids →
     Lykke._get_supported_pairs w
     = (Return ids, extend w [ApiRequest "GET" "AssetPairs" false ∅])).
Proof.
  intros Hjson. split; intros Hresp Hids.
  - unfold GDAX._get_supported_pairs, requests_request, perform, bind, lift, json.
    rewrite Hresp, Hjson. simpl. by rewrite (comprehension_fields _ _ _ Hids).
  - unfold Lykke._get_supported_pairs, Lykke.asset_pairs, Lykke.request,
      RESTInterface_request, perform, bind, lift, json.
    rewrite Hresp, Hjson. simpl. by rewrite (comprehension_fields _ _ _ Hids).
Qed.

Lemma get_supported_pairs_extracts_ids_witness :
  GDAX._get_supported_pairs
    {| trace := []; answer := λ _ _, Return (two_products "id" "BTC-USD" "ETH-USD") |}
  = (Return [VStr "BTC-USD"; VStr "ETH-USD"],
     {| trace := [Http "GET" (<["url" := VStr "https://api.gdax.com/products"]> ∅)];
        answer := λ _ _, Return (two_products "id" "BTC-USD" "ETH-USD") |})
  ∧ Lykke._get_supported_pairs
      {| trace := []; answer := λ _ _, Return (two_products "Id" "BTCUSD" "ETHUSD") |}
    = (Return [VStr "BTCUSD"; VStr "ETHUSD"],
       {| trace := [ApiRequest "GET" "AssetPairs" false ∅];
          answer := λ _ _, Return (two_products "Id" "BTCUSD" "ETHUSD") |}).
Proof.
  split.
  - refine (proj1 (get_supported_pairs_extracts_ids
                     {| trace := []; answer := λ _ _, Return (two_products "id" "BTC-USD" "ETH-USD") |}
                     (two_products "id" "BTC-USD" "ETH-USD") _ _ eq_refl) eq_refl _).
    repeat constructor; eexists; (split; [reflexivity|]); by vm_compute.
  - refine (proj2 (get_supported_pairs_extracts_ids
                     {| trace := []; answer := λ _ _, Return (two_products "Id" "BTCUSD" "ETHUSD") |}
                     (two_products "Id" "BTCUSD" "ETHUSD") _ _ eq_refl) eq_refl _).
    repeat constructor; eexists; (split; [reflexivity|]); by vm_compute.
Defined.

(** An answer that is not an array of objects is not parsed: an error
    object makes the comprehension raise. *)
Example get_supported_pairs_error_object :
  fst (GDAX._get_supported_pairs
         {| trace := [];
            answer := λ _ _, Return (mkResponse 500
                         (Some (VDict {["message" := VStr "down"]}))) |})
  = Raise TypeError.
Proof. vm_compute. reflexivity. Qed.

(** ** [Lykke.trades] *)

Lemma dict_update_singleton (d : PyDict) (k : string) (v : PyVal) :
  dict_update d {[k := v]} = <[k := v]> d.
Proof. unfold dict_update. by rewrite insert_union_singleton_l. Qed.

(** The keyword arguments [Lykke.trades] sends: [skip] and [take] are filled
    in when they are absent or [None]. *)
Lemma trades_params_default (kwargs : PyDict) (k : string) (dflt : PyVal) :
  let kwargs' :=
    if is_none (dict_get kwargs k) then dict_update kwargs {[k := dflt]} else kwargs in
  (kwargs !! k = None ∨ kwargs !! k = Some VNone → kwargs' !! k = Some dflt)
  ∧ (∀ v, kwargs !! k = Some v → v ≠ VNone → kwargs' !! k = Some v)
  ∧ (∀ k', k' ≠ k → kwargs' !! k' = kwargs !! k').
Proof.
  simpl. unfold dict_get. rewrite dict_update_singleton.
  destruct (kwargs !! k) as [v|] eqn:Hk; simpl.
  - destruct v; simpl; (split; [|split]);
      try (intros [?|?]; simplify_eq);
      try (intros ? ? ?; simplify_eq);
      try by rewrite ?lookup_insert_eq.
    all: try (intros; by rewrite lookup_insert_ne).
    all: try done.
  - split; [|split].
    + intros _. by rewrite lookup_insert_eq.
    + intros ? ?. simplify_eq.
    + intros k' Hk'. by rewrite lookup_insert_ne.
Qed.

(** C9. Every call of [Lykke.trades] that issues its request (the pair is
    supported) sends query parameters that contain both ['skip'] and
    ['take']: an absent or [None] ['skip'] becomes 0, an absent or [None]
    ['take'] becomes 1000, and every other value the caller gave is sent
    unchanged. *)
Theorem lykke_trades_skip_take
    {Canonical : Type} (F : Formatter Canonical) (self : Lykke.t)
    (pair : string) (kwargs : PyDict) (w : World) :
  pair ∈ supported_pairs (Lykke.interface self) →
  ∃ params : PyDict,
    snd (Lykke.trades F self pair kwargs w)
    = extend w
        [Http "GET"
           (<["url" := VStr (Lykke.public_api self +:+ "Trades/"
                             +:+ to_native (Lykke.interface self) pair)]>
              {["params" := VDict params]})]
    ∧ (kwargs !! "skip" = None ∨ kwargs !! "skip" = Some VNone →
       params !! "skip" = Some (VInt 0))
    ∧ (kwargs !! "take" = None ∨ kwargs !! "take" = Some VNone →
       params !! "take" = Some (VInt 1000))
    ∧ (∀ k v, kwargs !! k = Some v → v ≠ VNone → params !! k = Some v)
    ∧ is_Some (params !! "skip") ∧ is_Some (params !! "take")
    ∧ (∀ k, k ≠ "skip" → k ≠ "take" → params !! k = kwargs !! k).
Proof.
  intros Hpair.
  unfold Lykke.trades. rewrite (check_and_format_pair_supported _ _ _ Hpair).
  unfold Lykke.trades_body.
  set (kw1 := if is_none (dict_get kwargs "skip")
              then dict_update kwargs {["skip" := VInt 0]} else kwargs).
  set (kw2 := if is_none (dict_get kw1 "take")
              then dict_update kw1 {["take" := VInt 1000]} else kw1).
  destruct (trades_params_default kwargs "skip" (VInt 0)) as (Hs1 & Hs2 & Hs3).
  destruct (trades_params_default kw1 "take" (VInt 1000)) as (Ht1 & Ht2 & Ht3).
  fold kw1 in Hs1, Hs2, Hs3. fold kw2 in Ht1, Ht2, Ht3.
  assert (Hskip : ∀ k, k ≠ "take" → kw2 !! k = kw1 !! k) by (intros; by apply Ht3).
  assert (Htake : kw1 !! "take" = kwargs !! "take") by (by apply Hs3).
  exists kw2. split.
  { unfold format_with, one, requests_request, perform, bind. simpl.
    by destruct (answer w (trace w) _). }
  split. { intros H. rewrite Hskip by done. by apply Hs1. }
  split. { intros H. apply Ht1. by rewrite Htake. }
  split.
  { intros k v Hk Hv.
    destruct (decide (k = "take")) as [->|Hk1].
    - apply Ht2; [|done]. by rewrite Htake.
    - rewrite Hskip by done.
      destruct (decide (k = "skip")) as [->|Hk2].
      + by apply Hs2.
      + by rewrite Hs3. }
  split.
  { rewrite Hskip by done.
    destruct (kwargs !! "skip") as [v|] eqn:Hk.
    - destruct (is_none v) eqn:Hv.
      + destruct v; try done. rewrite Hs1; [done|by right].
      + rewrite (Hs2 v); [done|done|]. by intros ->.
    - rewrite Hs1; [done|by left]. }
  split.
  { destruct (kw1 !! "take") as [v|] eqn:Hk.
    - destruct (is_none v) eqn:Hv.
      + destruct v; try done. rewrite Ht1; [done|by right].
      + rewrite (Ht2 v); [done|done|]. by intros ->.
    - rewrite Ht1; [done|by left]. }
  intros k Hk1 Hk2. rewrite Hskip by done. by apply Hs3.
Qed.

Lemma lykke_trades_skip_take_witness :
  let self := Lykke.__init__ ["BTCUSD"] id in
  ∃ params : PyDict,
    snd (Lykke.trades no_formatter self "BTCUSD"
           {["take" := VInt 50; "skip" := VNone]} agreeable)
    = extend agreeable
        [Http "GET"
           (<["url" := VStr "https://public-api.lykke.com/api/Trades/BTCUSD"]>
              {["params" := VDict params]})]
    ∧ params !! "skip" = Some (VInt 0)
    ∧ params !! "take" = Some (VInt 50).
Proof.
  assert (Hpair : "BTCUSD" ∈ supported_pairs
                    (Lykke.interface (Lykke.__init__ ["BTCUSD"] id)))
    by by_evaluation.
  destruct (lykke_trades_skip_take no_formatter (Lykke.__init__ ["BTCUSD"] id)
              "BTCUSD" {["take" := VInt 50; "skip" := VNone]} agreeable Hpair)
    as (params & Hrun & Hskip & _ & Hkeep & _).
  exists params. split; [exact Hrun|]. split.
  - apply Hskip. right. by vm_compute.
  - apply Hkeep; [by vm_compute|done].
Defined.

(** ** The Lykke REST backend *)

Section LykkeREST_signing.
Variable super_sign : RESTAPI → string → PyDict → Outcome PyDict.

(** What [sign_request_kwargs] returns, read off the request the base
    class assembled. *)
Lemma sign_request_kwargs_returns self endpoint kwargs r :
  LykkeREST.sign_request_kwargs super_sign self endpoint kwargs = Return r →
  ∃ base params,
    super_sign self endpoint kwargs = Return base
    ∧ base !! "params" = Some params
    ∧ (truthy params = false → is_Some (base !! "data"))
    ∧ r = <["data" := if truthy params then params
                      else default VNone (base !! "data")]>
            (delete "params"
               (<["headers" := VDict {["api-key" := py_of_option (key self)]}]> base)).
Proof.
  unfold LykkeREST.sign_request_kwargs.
  destruct (super_sign self endpoint kwargs) as [base|e]; simpl; [|done].
  unfold dict_pop. rewrite lookup_insert_ne by done.
  destruct (base !! "params") as [params|] eqn:Hparams; simpl; [|done].
  destruct (truthy params) eqn:Htruthy; simpl.
  - intros [= <-]. exists base, params. rewrite Htruthy. by repeat split.
  - unfold dict_getitem. rewrite lookup_delete_ne, lookup_insert_ne by done.
    destruct (base !! "data") as [data|] eqn:Hdata; simpl; [|done].
    intros [= <-]. exists base, params. rewrite Htruthy, Hdata. by repeat split.
Qed.

(** It returns whenever the assembled request has the slots it reads. *)
Lemma sign_request_kwargs_total self endpoint kwargs base params :
  super_sign self endpoint kwargs = Return base →
  base !! "params" = Some params →
  (truthy params = false → is_Some (base !! "data")) →
  ∃ r, LykkeREST.sign_request_kwargs super_sign self endpoint kwargs = Return r.
Proof.
  intros Hbase Hparams Hdata. unfold LykkeREST.sign_request_kwargs.
  rewrite Hbase. simpl. unfold dict_pop.
  rewrite lookup_insert_ne, Hparams by done. simpl.
  destruct (truthy params) eqn:Htruthy; simpl; [by eexists|].
  destruct (Hdata eq_refl) as [data Hd]. unfold dict_getitem.
  rewrite lookup_delete_ne, lookup_insert_ne, Hd by done. simpl. by eexists.
Qed.
End LykkeREST_signing.

(** C5. Lykke's signing is a key-only scheme behind the common interface. A
    [LykkeREST] constructed without a secret ([None] or the empty string)
    holds the placeholder ['not applicable']; whatever [sign_request_kwargs]
    returns has the headers [{'api-key': key}]; and the secret does not
    enter the result: changing it changes nothing as long as the request the
    base class assembles is the same. *)
Theorem lykke_key_only_signing :
  (∀ addr0 key0 secret0 version0 timeout0 config0,
     nonempty secret0 = false →
     secret (LykkeREST.__init__ addr0 key0 secret0 version0 timeout0 config0)
     = Some "not applicable")
  ∧ (∀ super_sign self endpoint kwargs r,
       LykkeREST.sign_request_kwargs super_sign self endpoint kwargs = Return r →
       r !! "headers" = Some (VDict {["api-key" := py_of_option (key self)]}))
  ∧ (∀ super_sign self s endpoint kwargs,
       super_sign (with_secret self s) endpoint kwargs
       = super_sign self endpoint kwargs →
       LykkeREST.sign_request_kwargs super_sign (with_secret self s) endpoint kwargs
       = LykkeREST.sign_request_kwargs super_sign self endpoint kwargs).
Proof.
  split; [|split].
  - intros addr0 key0 secret0 version0 timeout0 config0 Hsecret.
    unfold LykkeREST.__init__, RESTAPI_init, str_or. simpl.
    destruct secret0 as [s|]; [|done]. simpl in Hsecret.
    by destruct (String.eqb s "").
  - intros super_sign self endpoint kwargs r Hr.
    destruct (sign_request_kwargs_returns _ _ _ _ _ Hr) as (base & params & _ & _ & _ & ->).
    rewrite lookup_insert_ne, lookup_delete_ne by done. by rewrite lookup_insert_eq.
  - intros super_sign self s endpoint kwargs Hsuper.
    unfold LykkeREST.sign_request_kwargs. by rewrite Hsuper.
Qed.

Lemma lykke_key_only_signing_witness :
  let self := LykkeREST.__init__ None (Some "my-key") None None 5 None in
  secret self = Some "not applicable"
  ∧ (∃ r, LykkeREST.sign_request_kwargs generic_sign_request_kwargs self "Wallets" ∅
          = Return r
          ∧ r !! "headers" = Some (VDict {["api-key" := VStr "my-key"]}))
  ∧ LykkeREST.sign_request_kwargs generic_sign_request_kwargs
      (with_secret self (Some "s3cret")) "Wallets" ∅
    = LykkeREST.sign_request_kwargs generic_sign_request_kwargs self "Wallets" ∅.
Proof.
  destruct lykke_key_only_signing as (Hinit & Hheaders & Hsecret).
  split; [|split].
  - apply Hinit. reflexivity.
  - eexists. split.
    + vm_compute. reflexivity.
    + apply (Hheaders generic_sign_request_kwargs
               (LykkeREST.__init__ None (Some "my-key") None None 5 None) "Wallets" ∅).
      vm_compute. reflexivity.
  - apply Hsecret. reflexivity.
Defined.

(** C6. The request [sign_request_kwargs] returns has no ['params'] entry:
    the parameters the base class put in the query slot are moved to the
    body slot ['data'], and the assembled ['data'] is kept only when the
    removed parameters are falsy. It returns whenever the assembled request
    has the slots it reads. *)
Theorem lykke_params_moved_to_data
    (super_sign : RESTAPI → string → PyDict → Outcome PyDict)
    (self : RESTAPI) (endpoint : string) (kwargs : PyDict) :
  (∀ r,
     LykkeREST.sign_request_kwargs super_sign self endpoint kwargs = Return r →
     r !! "params" = None
     ∧ ∃ base params,
         super_sign self endpoint kwargs = Return base
         ∧ base !! "params" = Some params
         ∧ r !! "data" = (if truthy params then Some params else base !! "data")
         ∧ ∀ k, k ≠ "params" → k ≠ "data" → k ≠ "headers" → r !! k = base !! k)
  ∧ (∀ base params,
       super_sign self endpoint kwargs = Return base →
       base !! "params" = Some params →
       (truthy params = false → is_Some (base !! "data")) →
       ∃ r, LykkeREST.sign_request_kwargs super_sign self endpoint kwargs = Return r).
Proof.
  split.
  - intros r Hr.
    destruct (sign_request_kwargs_returns _ _ _ _ _ Hr)
      as (base & params & Hbase & Hparams & Hdata & ->).
    split.
    { rewrite lookup_insert_ne by done. by rewrite lookup_delete_eq. }
    exists base, params. split; [done|]. split; [done|]. split.
    + rewrite lookup_insert_eq. destruct (truthy params) eqn:Htruthy; [done|].
      destruct (Hdata eq_refl) as [data ->]. done.
    + intros k Hk1 Hk2 Hk3.
      by rewrite lookup_insert_ne, lookup_delete_ne, lookup_insert_ne.
  - apply sign_request_kwargs_total.
Qed.

Lemma lykke_params_moved_to_data_witness :
  let self := LykkeREST.__init__ None (Some "my-key") None None 5 None in
  let kwargs : PyDict := {["params" := VDict {["take" := VInt 10]}]} in
  ∃ r, LykkeREST.sign_request_kwargs generic_sign_request_kwargs self "Orders" kwargs
       = Return r
       ∧ r !! "params" = None
       ∧ r !! "data" = Some (VDict {["take" := VInt 10]}).
Proof.
  destruct (lykke_params_moved_to_data generic_sign_request_kwargs
              (LykkeREST.__init__ None (Some "my-key") None None 5 None) "Orders"
              {["params" := VDict {["take" := VInt 10]}]}) as [Hret Htotal].
  destruct (Htotal _ (VDict {["take" := VInt 10]}) eq_refl) as [r Hr].
  - by vm_compute.
  - intros H. by vm_compute in H.
  - exists r. split; [exact Hr|].
    destruct (Hret r Hr) as (Hnone & base & params & Hbase & Hparams & Hdata & _).
    split; [exact Hnone|].
    injection Hbase as <-.
    assert (params = VDict {["take" := VInt 10]}) as ->.
    { vm_compute in Hparams. by injection Hparams as <-. }
    exact Hdata.
Defined.

(** ** Authentication requirements *)

(** C7, as the code has it. A request that requires authentication, made on
    an instance whose stored key or secret is empty, raises
    [IncompleteCredentialsError] and leaves the world as it was: nothing is
    signed and no network call is made; [LykkeREST.check_auth_requirements]
    passes the base class's failure on unchanged. A [LykkeREST] built by its
    constructor never stores an empty secret, so for it the credentials are
    complete exactly when the key is non-empty. *)
Theorem private_query_requires_credentials :
  (∀ super_sign self verb endpoint kwargs,
     configured self = false →
     fails_untouched (LykkeREST.private_query super_sign self verb endpoint kwargs)
       IncompleteCredentialsError)
  ∧ (∀ self,
       LykkeREST.check_auth_requirements self = RESTAPI_check_auth_requirements self)
  ∧ (∀ addr0 key0 secret0 version0 timeout0 config0,
       configured (LykkeREST.__init__ addr0 key0 secret0 version0 timeout0 config0)
       = nonempty key0).
Proof.
  split; [|split].
  - intros super_sign self verb endpoint kwargs Hconf w.
    unfold LykkeREST.private_query, LykkeREST.check_auth_requirements,
      RESTAPI_check_auth_requirements, bind, lift.
    by rewrite Hconf.
  - intros self. unfold LykkeREST.check_auth_requirements.
    by destruct (RESTAPI_check_auth_requirements self) as [[]|[]].
  - intros addr0 key0 secret0 version0 timeout0 config0.
    unfold configured, LykkeREST.__init__, RESTAPI_init, str_or. simpl.
    destruct secret0 as [s|]; simpl.
    + destruct (String.eqb s "") eqn:Hs; simpl; [by rewrite andb_true_r|].
      by rewrite Hs, andb_true_r.
    + by rewrite andb_true_r.
Qed.

Lemma private_query_requires_credentials_witness :
  let self := LykkeREST.__init__ None None (Some "s3cret") None 5 None in
  LykkeREST.private_query generic_sign_request_kwargs self "GET" "Wallets" ∅ agreeable
  = (Raise IncompleteCredentialsError, agreeable).
Proof.
  destruct private_query_requires_credentials as (Hraise & _ & _).
  apply Hraise. reflexivity.
Defined.

(** C7, as the spec has it, fails on [LykkeREST]: an empty secret given to
    the constructor is replaced by the placeholder, the check passes, and the
    request is signed and sent. *)
Lemma lykke_empty_secret_is_not_rejected :
  let self := LykkeREST.__init__ None (Some "my-key") (Some "") None 5 None in
  LykkeREST.check_auth_requirements self = Return tt
  ∧ LykkeREST.private_query generic_sign_request_kwargs self "GET" "Wallets" ∅ agreeable
    = (Return ok_response,
       extend agreeable
         [Signed "Wallets";
          Http "GET" {[ "url" := VStr "https://hft-api.lykke.com/api/Wallets";
                        "headers" := VDict {["api-key" := VStr "my-key"]};
                        "data" := VDict ∅ ]}])
  ∧ network_calls
      (events_of (LykkeREST.private_query generic_sign_request_kwargs self
                    "GET" "Wallets" ∅) agreeable) = 1
  ∧ LykkeREST.private_query generic_sign_request_kwargs self "GET" "Wallets" ∅ agreeable
    ≠ (Raise IncompleteCredentialsError, agreeable).
Proof.
  split; [reflexivity|]. split; [|split].
  - vm_compute. reflexivity.
  - vm_compute. reflexivity.
  - vm_compute. discriminate.
Qed.

(** * Further properties of the code *)

(** ** [GDAX.cancel_order]: a request that raises *)

Lemma answers_app w evs1 evs2 rs1 rs2 :
  answers w evs1 rs1 → answers (extend w evs1) evs2 rs2 →
  answers w (evs1 ++ evs2) (rs1 ++ rs2).
Proof.
  revert w rs1. induction evs1 as [|ev evs1 IH]; intros w [|r rs1]; simpl; try done.
  - intros _. by rewrite extend_nil.
  - intros [Hr Hrest] Htail. split; [done|]. apply IH; [done|].
    by rewrite extend_extend.
Qed.

Lemma cancel_order_loop_app ids1 ids2 kwargs resps w rs :
  answers w (delete_request kwargs <$> ids1) rs →
  GDAX.cancel_order_loop (ids1 ++ ids2) kwargs resps w
  = GDAX.cancel_order_loop ids2 kwargs (resps ++ rs)
      (extend w (delete_request kwargs <$> ids1)).
Proof.
  revert resps w rs. induction ids1 as [|oid ids1 IH]; intros resps w rs.
  - destruct rs; [|done]. intros _. simpl. by rewrite app_nil_r, extend_nil.
  - destruct rs as [|r rs]; [done|]. simpl. intros [Hr Hrest].
    unfold bind at 1. unfold GDAX.request, RESTInterface_request, perform.
    fold (delete_request kwargs oid). rewrite Hr.
    rewrite (IH _ _ _ Hrest), extend_extend. by rewrite <- app_assoc.
Qed.

(** X1. When the requests of the first identifiers return and the request of
    the next one raises, [GDAX.cancel_order] raises that exception: the
    identifiers after it are not attempted, and the responses collected so
    far are not returned. *)
Theorem cancel_order_aborts_on_raise
    {Canonical : Type} (F : Formatter Canonical)
    (ids1 : list string) (oid : string) (ids2 : list string) (kwargs : PyDict)
    (w : World) (rs : list Response) (e : PyExc) :
  answers w (delete_request kwargs <$> ids1) rs →
  answer w (trace w ++ (delete_request kwargs <$> ids1)) (delete_request kwargs oid)
  = Raise e →
  GDAX.cancel_order F (ids1 ++ oid :: ids2) kwargs w
  = (Raise e, extend w (delete_request kwargs <$> (ids1 ++ [oid]))).
Proof.
  intros Hrs He.
  assert (Hloop : GDAX.cancel_order_loop (ids1 ++ oid :: ids2) kwargs [] w
                  = (Raise e, extend w (delete_request kwargs <$> (ids1 ++ [oid])))).
  { rewrite (cancel_order_loop_app _ _ _ _ _ _ Hrs).
    rewrite (cancel_order_loop_raises _ _ _ _ _ e) by exact He.
    by rewrite extend_extend, fmap_app. }
  unfold GDAX.cancel_order, format_with, GDAX.cancel_order_body.
  apply bind_raises. by apply bind_raises.
Qed.

Lemma cancel_order_aborts_on_raise_witness :
  GDAX.cancel_order no_formatter ["a"; "b"; "c"] ∅ drops_second
  = (Raise TransportError, extend drops_second (delete_request ∅ <$> ["a"; "b"])).
Proof.
  apply (cancel_order_aborts_on_raise no_formatter ["a"] "b" ["c"] ∅ drops_second
           [ok_response] TransportError).
  - simpl. split; reflexivity.
  - reflexivity.
Defined.

(** ** Fetching the supported pairs from a malformed answer *)

Lemma comprehension_first_failure (field : string) (good : list PyVal)
    (x : PyVal) (rest : list PyVal) (e : PyExc) :
  Forall (λ y, ∃ i, has_field field y i) good →
  py_getitem x field = Raise e →
  comprehension (λ y, py_getitem y field) (good ++ x :: rest) = Raise e.
Proof.
  intros Hgood Hx. induction Hgood as [|y good (i & d & -> & Hd) _ IH]; simpl.
  - by rewrite Hx.
  - unfold dict_getitem. rewrite Hd. simpl. by rewrite IH.
Qed.

Lemma py_getitem_missing (field : string) (x : PyVal) :
  (∀ i, ¬ has_field field x i) →
  py_getitem x field = Raise (missing_field_error field x).
Proof.
  intros Hx. destruct x as [| | | | |d]; try done. simpl. unfold dict_getitem.
  destruct (d !! field) as [i|] eqn:Hd; [|done].
  destruct (Hx i). by exists d.
Qed.

(** X2. The first element of the answered array that does not carry the
    identifier field (every element before it does) makes the fetch of the
    supported pairs fail as a whole, after its one GET: with [KeyError] for
    the field when that element is an object, with [TypeError] when it is
    anything else. The identifiers of the other elements are not
    returned. *)
Theorem get_supported_pairs_missing_id
    (w : World) (resp : Response) (good : list PyVal) (x : PyVal)
    (rest : list PyVal) :
  json_body resp = Some (VList (good ++ x :: rest)) →
  (answer w (trace w) gdax_products_request = Return resp →
   Forall (λ y, ∃ i, has_field "id" y i) good →
   (∀ i, ¬ has_field "id" x i) →
   GDAX._get_supported_pairs w
   = (Raise (missing_field_error "id" x), extend w [gdax_products_request]))
  ∧ (answer w (trace w) lykke_asset_pairs_request = Return resp →
     Forall (λ y, ∃ i, has_field "Id" y i) good →
     (∀ i, ¬ has_field "Id" x i) →
     Lykke._get_supported_pairs w
     = (Raise (missing_field_error "Id" x), extend w [lykke_asset_pairs_request])).
Proof.
  intros Hjson. split; intros Hresp Hgood Hx.
  - unfold GDAX._get_supported_pairs, requests_request, perform, bind, lift, json.
    fold gdax_products_request. rewrite Hresp, Hjson. simpl.
    by rewrite (comprehension_first_failure "id" good x rest
                  (missing_field_error "id" x) Hgood (py_getitem_missing _ _ Hx)).
  - unfold Lykke._get_supported_pairs, Lykke.asset_pairs, Lykke.request,
      RESTInterface_request, perform, bind, lift, json.
    fold lykke_asset_pairs_request. rewrite Hresp, Hjson. simpl.
    by rewrite (comprehension_first_failure "Id" good x rest
                  (missing_field_error "Id" x) Hgood (py_getitem_missing _ _ Hx)).
Qed.

Lemma get_supported_pairs_missing_id_witness :
  GDAX._get_supported_pairs
    {| trace := []; answer := λ _ _, Return (two_products "Id" "BTCUSD" "ETHUSD") |}
  = (Raise (KeyError "id"),
     {| trace := [gdax_products_request];
        answer := λ _ _, Return (two_products "Id" "BTCUSD" "ETHUSD") |})
  ∧ Lykke._get_supported_pairs
      {| trace := [];
         answer := λ _ _, Return (mkResponse 200
                     (Some (VList [VDict {["Id" := VStr "BTCUSD"]}; VInt 5;
                                   VDict ∅]))) |}
    = (Raise TypeError,
       {| trace := [lykke_asset_pairs_request];
          answer := λ _ _, Return (mkResponse 200
                      (Some (VList [VDict {["Id" := VStr "BTCUSD"]}; VInt 5;
                                    VDict ∅]))) |}).
Proof.
  split.
  - refine (proj1 (get_supported_pairs_missing_id
                     {| trace := [];
                        answer := λ _ _, Return (two_products "Id" "BTCUSD" "ETHUSD") |}
                     (two_products "Id" "BTCUSD" "ETHUSD") [] _ _ eq_refl)
              eq_refl _ _).
    + constructor.
    + intros i (d & [= <-] & Hd). by vm_compute in Hd.
  - refine (proj2 (get_supported_pairs_missing_id
                     {| trace := [];
                        answer := λ _ _, Return (mkResponse 200
                          (Some (VList [VDict {["Id" := VStr "BTCUSD"]}; VInt 5;
                                        VDict ∅]))) |}
                     (mkResponse 200
                        (Some (VList [VDict {["Id" := VStr "BTCUSD"]}; VInt 5;
                                      VDict ∅])))
                     [VDict {["Id" := VStr "BTCUSD"]}] (VInt 5) [VDict ∅] eq_refl)
              eq_refl _ _).
    + repeat constructor. exists (VStr "BTCUSD"), {["Id" := VStr "BTCUSD"]}.
      split; [done|]. by vm_compute.
    + intros i (d & [=] & _).
Defined.

Lemma comprehension_not_a_list (field : string) (v : PyVal) :
  (∀ l, v ≠ VList l) →
  obind (py_iter v) (comprehension (λ x, py_getitem x field))
  = if iterates_to_nothing v then Return [] else Raise TypeError.
Proof.
  intros Hv. destruct v as [| | |s|l|d]; simpl; try done.
  - by destruct s.
  - by destruct (Hv l).
  - rewrite <- length_map_to_list.
    by destruct (map_to_list d) as [|[k x] kvs].
Qed.

(** X3. An answer whose JSON is not an array is not rejected as such. A
    JSON object or string that is empty yields an empty list of supported
    pairs; every other value ([null], a number, a boolean, a non-empty
    object such as an error message, a non-empty string) makes the fetch
    raise [TypeError]. The GET is issued either way. *)
Theorem get_supported_pairs_not_an_array
    (w : World) (resp : Response) (v : PyVal) :
  json_body resp = Some v →
  (∀ l, v ≠ VList l) →
  (answer w (trace w) gdax_products_request = Return resp →
   GDAX._get_supported_pairs w
   = (if iterates_to_nothing v then Return [] else Raise TypeError,
      extend w [gdax_products_request]))
  ∧ (answer w (trace w) lykke_asset_pairs_request = Return resp →
     Lykke._get_supported_pairs w
     = (if iterates_to_nothing v then Return [] else Raise TypeError,
        extend w [lykke_asset_pairs_request])).
Proof.
  intros Hjson Hv.
  pose proof (comprehension_not_a_list "id" v Hv) as Hid.
  pose proof (comprehension_not_a_list "Id" v Hv) as HId.
  split; intros Hresp.
  - unfold GDAX._get_supported_pairs, requests_request, perform, bind, lift, json.
    fold gdax_products_request. rewrite Hresp, Hjson. simpl.
    destruct (py_iter v) as [xs|e]; simpl in *.
    + rewrite Hid. by destruct (iterates_to_nothing v).
    + rewrite <- Hid. done.
  - unfold Lykke._get_supported_pairs, Lykke.asset_pairs, Lykke.request,
      RESTInterface_request, perform, bind, lift, json.
    fold lykke_asset_pairs_request. rewrite Hresp, Hjson. simpl.
    destruct (py_iter v) as [xs|e]; simpl in *.
    + rewrite HId. by destruct (iterates_to_nothing v).
    + rewrite <- HId. done.
Qed.

Lemma get_supported_pairs_not_an_array_witness :
  GDAX._get_supported_pairs
    {| trace := []; answer := λ _ _, Return error_response |}
  = (Raise TypeError,
     {| trace := [gdax_products_request]; answer := λ _ _, Return error_response |})
  ∧ Lykke._get_supported_pairs agreeable
    = (Return [], extend agreeable [lykke_asset_pairs_request]).
Proof.
  split.
  - refine (proj1 (get_supported_pairs_not_an_array
                     {| trace := []; answer := λ _ _, Return error_response |}
                     error_response _ eq_refl _) eq_refl).
    intros l H. discriminate H.
  - refine (proj2 (get_supported_pairs_not_an_array agreeable ok_response _
                     eq_refl _) eq_refl).
    intros l H. discriminate H.
Defined.

(** ** Single requests *)

Lemma perform_issues_only (ev : Event) : issues_only (perform ev) ev.
Proof. intros w. reflexivity. Qed.

(** The formatting stage adds no event. *)
Lemma format_with_issues_only {Canonical : Type} (F : Formatter Canonical)
    (method : string) (m : Py Response) (ev : Event) :
  issues_only m ev → issues_only (format_with F method (one m)) ev.
Proof.
  intros Hm w. specialize (Hm w). unfold format_with, one, bind.
  by destruct (m w) as [[r|e] w'].
Qed.

(** ** Placing orders on GDAX *)

(** The body of the order request: the keyword arguments laid over the four
    fields of the method. *)
Lemma place_order_params (pair side : string) (price size : PyVal)
    (kwargs : PyDict) (k : string) :
  dict_update
    ({[ "product_id" := VStr pair; "side" := VStr side;
        "size" := size; "price" := price ]} : PyDict) kwargs !! k
  = match kwargs !! k with
    | Some v => Some v
    | None =>
        if decide (k = "product_id") then Some (VStr pair)
        else if decide (k = "side") then Some (VStr side)
        else if decide (k = "size") then Some size
        else if decide (k = "price") then Some price
        else None
    end.
Proof.
  unfold dict_update.
  destruct (kwargs !! k) as [v|] eqn:Hk.
  - by apply lookup_union_Some_l.
  - rewrite lookup_union_r by done.
    repeat (case_decide; [subst k; by simplify_map_eq|]).
    by simplify_map_eq.
Qed.

(** X4. [GDAX._place_order] issues exactly one authenticated POST to
    ['orders'] whose body carries the side, size and price of the call
    (keyword arguments cannot carry these names: Python binds them to the
    parameters), every keyword argument of the caller, and as ['product_id']
    the pair, unless a keyword argument ['product_id'] replaces it. *)
Theorem place_order_request_body
    (pair side : string) (price size : PyVal) (kwargs : PyDict) :
  kwargs !! "side" = None →
  kwargs !! "size" = None →
  kwargs !! "price" = None →
  ∃ body : PyDict,
    issues_only (GDAX._place_order pair price size side kwargs)
      (ApiRequest "POST" "orders" true {["json" := VDict body]})
    ∧ body !! "side" = Some (VStr side)
    ∧ body !! "size" = Some size
    ∧ body !! "price" = Some price
    ∧ body !! "product_id" = Some (default (VStr pair) (kwargs !! "product_id"))
    ∧ (∀ k v, kwargs !! k = Some v → body !! k = Some v)
    ∧ (∀ k, k ≠ "product_id" → k ≠ "side" → k ≠ "size" → k ≠ "price" →
         body !! k = kwargs !! k).
Proof.
  intros Hside Hsize Hprice. eexists. split.
  { unfold GDAX._place_order, GDAX.request, RESTInterface_request.
    apply perform_issues_only. }
  repeat split.
  - by rewrite place_order_params, Hside.
  - by rewrite place_order_params, Hsize.
  - by rewrite place_order_params, Hprice.
  - rewrite place_order_params. by destruct (kwargs !! "product_id").
  - intros k v Hk. by rewrite place_order_params, Hk.
  - intros k H1 H2 H3 H4. rewrite place_order_params.
    destruct (kwargs !! k); [done|]. by repeat (case_decide; [done|]).
Qed.

Lemma place_order_request_body_witness :
  ∃ body : PyDict,
    issues_only
      (GDAX._place_order "BTC-USD" (VInt 9000) (VInt 2) "sell"
         {["post_only" := VBool true]})
      (ApiRequest "POST" "orders" true {["json" := VDict body]})
    ∧ body !! "side" = Some (VStr "sell")
    ∧ body !! "product_id" = Some (VStr "BTC-USD")
    ∧ body !! "post_only" = Some (VBool true).
Proof.
  destruct (place_order_request_body "BTC-USD" "sell" (VInt 9000) (VInt 2)
              {["post_only" := VBool true]})
    as (body & Hreq & Hside & _ & _ & Hprod & Hkw & _); [by vm_compute..|].
  exists body. split; [exact Hreq|]. split; [exact Hside|]. split.
  - exact Hprod.
  - apply Hkw. by vm_compute.
Defined.

(** X5. For a supported pair, [GDAX.ask] and [GDAX.bid] called with a
    keyword argument ['side'] raise [TypeError] and issue nothing: the call
    of [_place_order] binds [side] twice. Called without one, they issue the
    same one order request except for the side, ['sell'] and ['buy']; the
    order is placed for the validated pair in native syntax unless the caller
    passes a keyword argument ['product_id']: that value goes into the body
    in its place, and it is not checked against the supported pairs. *)
Theorem ask_bid_differ_by_side
    {Canonical : Type} (F : Formatter Canonical) (self : RESTInterface)
    (pair : string) (price size : PyVal) (kwargs : PyDict) :
  pair ∈ supported_pairs self →
  (is_Some (kwargs !! "side") →
   fails_untouched (GDAX.ask F self pair price size kwargs) TypeError
   ∧ fails_untouched (GDAX.bid F self pair price size kwargs) TypeError)
  ∧ (kwargs !! "side" = None →
     ∃ sell buy : PyDict,
       issues_only (GDAX.ask F self pair price size kwargs)
         (ApiRequest "POST" "orders" true {["json" := VDict sell]})
       ∧ issues_only (GDAX.bid F self pair price size kwargs)
           (ApiRequest "POST" "orders" true {["json" := VDict buy]})
       ∧ sell !! "side" = Some (VStr "sell")
       ∧ buy !! "side" = Some (VStr "buy")
       ∧ (∀ k, k ≠ "side" → sell !! k = buy !! k)
       ∧ sell !! "product_id"
         = Some (default (VStr (to_native self pair)) (kwargs !! "product_id"))).
Proof.
  intros Hpair. unfold GDAX.ask, GDAX.bid.
  rewrite !(check_and_format_pair_supported _ _ _ Hpair). split.
  { intros [v Hside].
    split; apply format_with_raises, one_raises; intros w.
    - unfold GDAX.ask_body. by rewrite Hside.
    - unfold GDAX.bid_body. by rewrite Hside. }
  intros Hside. eexists _, _. split.
  { apply format_with_issues_only.
    unfold GDAX.ask_body. rewrite Hside.
    unfold GDAX._place_order, GDAX.request, RESTInterface_request.
    apply perform_issues_only. }
  split.
  { apply format_with_issues_only.
    unfold GDAX.bid_body. rewrite Hside.
    unfold GDAX._place_order, GDAX.request, RESTInterface_request.
    apply perform_issues_only. }
  split; [by rewrite place_order_params, Hside|].
  split; [by rewrite place_order_params, Hside|].
  split.
  - intros k Hk. rewrite !place_order_params.
    destruct (kwargs !! k); [done|].
    case_decide; [done|]. by case_decide.
  - rewrite place_order_params. by destruct (kwargs !! "product_id").
Qed.

Lemma ask_bid_differ_by_side_witness :
  let gdax := mkInterface "GDAX" ["BTC-USD"] id in
  GDAX.bid no_formatter gdax "BTC-USD" (VInt 9000) (VInt 2)
    {["side" := VStr "sell"]} agreeable
  = (Raise TypeError, agreeable)
  ∧ ∃ sell : PyDict,
      issues_only
        (GDAX.ask no_formatter gdax "BTC-USD" (VInt 9000) (VInt 2)
           {["product_id" := VStr "FOO-BAR"]})
        (ApiRequest "POST" "orders" true {["json" := VDict sell]})
      ∧ sell !! "side" = Some (VStr "sell")
      ∧ sell !! "product_id" = Some (VStr "FOO-BAR").
Proof.
  assert (Hpair : "BTC-USD" ∈ supported_pairs (mkInterface "GDAX" ["BTC-USD"] id))
    by by_evaluation.
  split.
  - apply (proj1 (ask_bid_differ_by_side no_formatter
                    (mkInterface "GDAX" ["BTC-USD"] id) "BTC-USD" (VInt 9000)
                    (VInt 2) {["side" := VStr "sell"]} Hpair)).
    exists (VStr "sell"). by vm_compute.
  - destruct (proj2 (ask_bid_differ_by_side no_formatter
                       (mkInterface "GDAX" ["BTC-USD"] id) "BTC-USD" (VInt 9000)
                       (VInt 2) {["product_id" := VStr "FOO-BAR"]} Hpair))
      as (sell & buy & Hask & _ & Hside & _ & _ & Hprod); [by vm_compute|].
    exists sell. split; [exact Hask|]. split; [exact Hside|]. exact Hprod.
Defined.

(** ** [Lykke.orders] and [Lykke.open_orders] *)

(** X6. [Lykke.orders] issues one authenticated GET to ['Orders'] whose
    query parameters are the caller's keyword arguments, with ['status']
    added exactly when the given status is truthy: [None] and the empty
    string send no status. (Python binds a keyword ['status'] to the
    parameter, so the keyword arguments hold none.) *)
Theorem lykke_orders_status_param (status : PyVal) (kwargs : PyDict) :
  kwargs !! "status" = None →
  ∃ params : PyDict,
    issues_only (Lykke_endpoints.orders status kwargs)
      (ApiRequest "GET" "Orders" true {["params" := VDict params]})
    ∧ params !! "status" = (if truthy status then Some status else None)
    ∧ (∀ k, k ≠ "status" → params !! k = kwargs !! k).
Proof.
  intros Hstatus. eexists. split.
  { unfold Lykke_endpoints.orders, Lykke.request, RESTInterface_request.
    apply perform_issues_only. }
  destruct (truthy status); split.
  - rewrite dict_update_singleton. by rewrite lookup_insert_eq.
  - intros k Hk. rewrite dict_update_singleton. by rewrite lookup_insert_ne.
  - done.
  - done.
Qed.

Lemma lykke_orders_status_param_witness :
  ∃ params : PyDict,
    issues_only (Lykke_endpoints.orders (VStr "") {["take" := VInt 10]})
      (ApiRequest "GET" "Orders" true {["params" := VDict params]})
    ∧ params !! "status" = None
    ∧ params !! "take" = Some (VInt 10).
Proof.
  destruct (lykke_orders_status_param (VStr "") {["take" := VInt 10]})
    as (params & Hreq & Hstatus & Hrest); [by vm_compute|].
  exists params. split; [exact Hreq|]. split; [exact Hstatus|].
  rewrite Hrest; [by vm_compute|done].
Defined.

(** X7. [Lykke.open_orders] always asks for the status ['InOrderBook']: it
    issues one authenticated GET to ['Orders'] with the caller's keyword
    arguments and that status, and a caller who passes a ['status'] of their
    own gets [TypeError] before any request is issued. *)
Theorem lykke_open_orders_in_order_book
    {Canonical : Type} (F : Formatter Canonical) (kwargs : PyDict) :
  (is_Some (kwargs !! "status") →
   fails_untouched (Lykke_endpoints.open_orders F kwargs) TypeError)
  ∧ (kwargs !! "status" = None →
     issues_only (Lykke_endpoints.open_orders F kwargs)
       (ApiRequest "GET" "Orders" true
          {["params" := VDict (<["status" := VStr "InOrderBook"]> kwargs)]})).
Proof.
  split.
  - intros [v Hv]. apply format_with_raises, one_raises. intros w.
    unfold Lykke_endpoints.open_orders_body. by rewrite Hv.
  - intros Hnone. apply format_with_issues_only. intros w.
    unfold Lykke_endpoints.open_orders_body. rewrite Hnone.
    unfold Lykke_endpoints.orders. simpl. by rewrite dict_update_singleton.
Qed.

Lemma lykke_open_orders_in_order_book_witness :
  Lykke_endpoints.open_orders no_formatter {["status" := VStr "All"]} agreeable
  = (Raise TypeError, agreeable)
  ∧ snd (Lykke_endpoints.open_orders no_formatter {["take" := VInt 5]} agreeable)
    = extend agreeable
        [ApiRequest "GET" "Orders" true
           {["params" := VDict (<["status" := VStr "InOrderBook"]>
                                  {["take" := VInt 5]})]}].
Proof.
  split.
  - apply (proj1 (lykke_open_orders_in_order_book no_formatter
                    {["status" := VStr "All"]})).
    exists (VStr "All"). by vm_compute.
  - apply (proj2 (lykke_open_orders_in_order_book no_formatter
                    {["take" := VInt 5]})).
    by vm_compute.
Defined.

(** ** Transfers on GDAX *)

(** X8. The deposit and withdrawal methods for payment methods and Coinbase
    accounts put the amount, the currency and the account into the keyword
    arguments and then issue their POST without them: the request has no
    body, whatever the arguments are. *)
Theorem gdax_transfers_send_no_body
    (str_upper : string → string) (amount : PyVal) (currency : string)
    (account_id : PyVal) (kwargs : PyDict) (w : World) :
  GDAX_endpoints.deposit_from_payment_method str_upper amount currency account_id kwargs w
  = perform (ApiRequest "POST" "deposits/payment-method" true ∅) w
  ∧ GDAX_endpoints.deposit_from_coinbase str_upper amount currency account_id kwargs w
    = perform (ApiRequest "POST" "deposits/coinbase-account" true ∅) w
  ∧ GDAX_endpoints.withdraw_to_payment_method str_upper amount currency account_id kwargs w
    = perform (ApiRequest "POST" "withdrawals/payment-method" true ∅) w
  ∧ GDAX_endpoints.withdraw_to_coinbase str_upper amount currency account_id kwargs w
    = perform (ApiRequest "POST" "withdrawals/coinbase-account" true ∅) w.
Proof. done. Qed.

(** X9. [GDAX.withdraw] issues one authenticated POST to
    ['withdrawals/crypto'] whose body is the caller's keyword arguments with
    the amount, the upper-cased currency and the address laid over them: a
    keyword ['crypto_address'] of the caller is replaced by the address. The
    address tag is not sent. *)
Theorem gdax_withdraw_body
    (str_upper : string → string) (amount : PyVal) (currency : string)
    (address address_tag : PyVal) (kwargs : PyDict) :
  ∃ body : PyDict,
    issues_only
      (GDAX_endpoints.withdraw str_upper amount currency address address_tag kwargs)
      (ApiRequest "POST" "withdrawals/crypto" true {["json" := VDict body]})
    ∧ body !! "amount" = Some amount
    ∧ body !! "currency" = Some (VStr (str_upper currency))
    ∧ body !! "crypto_address" = Some address
    ∧ (∀ k, k ≠ "amount" → k ≠ "currency" → k ≠ "crypto_address" →
         body !! k = kwargs !! k)
    ∧ (∀ tag w,
         GDAX_endpoints.withdraw str_upper amount currency address tag kwargs w
         = GDAX_endpoints.withdraw str_upper amount currency address address_tag
             kwargs w).
Proof.
  eexists. split.
  { unfold GDAX_endpoints.withdraw, GDAX.request, RESTInterface_request.
    apply perform_issues_only. }
  unfold dict_update. repeat split.
  - apply lookup_union_Some_l. by simplify_map_eq.
  - apply lookup_union_Some_l. by simplify_map_eq.
  - apply lookup_union_Some_l. by simplify_map_eq.
  - intros k H1 H2 H3. rewrite lookup_union_r; [done|]. by simplify_map_eq.
Qed.

(** ** Which requests are authenticated *)

Lemma perform_authenticated verb endpoint kwargs :
  one_authenticated_request (perform (ApiRequest verb endpoint true kwargs)).
Proof. eexists. split; [apply perform_issues_only|done]. Qed.

Lemma format_with_authenticated {Canonical : Type} (F : Formatter Canonical)
    (method : string) (m : Py Response) :
  one_authenticated_request m →
  one_authenticated_request (format_with F method (one m)).
Proof.
  intros (ev & Hev & Hauth). exists ev. split; [|done].
  by apply format_with_issues_only.
Qed.

(** X10. Every private endpoint of the GDAX interface that takes no list of
    identifiers issues exactly one request and asks the backend to
    authenticate it: order placement, order status, open orders, wallet, the
    account queries, fills, the transfers, payment methods, Coinbase accounts
    and trailing volume. *)
Theorem gdax_private_endpoints_authenticate
    {Canonical : Type} (F : Formatter Canonical) (str_upper : string → string)
    (pair side order_id account_id currency : string)
    (price size amount target tag : PyVal) (kwargs : PyDict) :
  one_authenticated_request (GDAX._place_order pair price size side kwargs)
  ∧ one_authenticated_request (GDAX_endpoints.order_status F order_id kwargs)
  ∧ one_authenticated_request (GDAX_endpoints.open_orders F kwargs)
  ∧ one_authenticated_request (GDAX_endpoints.wallet F kwargs)
  ∧ one_authenticated_request (GDAX_endpoints.account account_id)
  ∧ one_authenticated_request (GDAX_endpoints.account_history account_id kwargs)
  ∧ one_authenticated_request (GDAX_endpoints.account_holds account_id kwargs)
  ∧ one_authenticated_request (GDAX_endpoints.fills kwargs)
  ∧ one_authenticated_request
      (GDAX_endpoints.deposit_from_payment_method str_upper amount currency target kwargs)
  ∧ one_authenticated_request
      (GDAX_endpoints.deposit_from_coinbase str_upper amount currency target kwargs)
  ∧ one_authenticated_request
      (GDAX_endpoints.withdraw_to_payment_method str_upper amount currency target kwargs)
  ∧ one_authenticated_request
      (GDAX_endpoints.withdraw_to_coinbase str_upper amount currency target kwargs)
  ∧ one_authenticated_request
      (GDAX_endpoints.withdraw str_upper amount currency target tag kwargs)
  ∧ one_authenticated_request GDAX_endpoints.payment_methods
  ∧ one_authenticated_request GDAX_endpoints.coinbase_accounts
  ∧ one_authenticated_request GDAX_endpoints.trailing_volume.
Proof.
  repeat split;
    try apply format_with_authenticated;
    apply perform_authenticated.
Qed.

(** X11. Whatever the exchange answers, also when a request raises,
    [GDAX.cancel_order] issues nothing but the DELETE requests of a prefix of
    its identifiers, in input order; each of them asks for authentication. *)
Theorem cancel_order_issues_a_prefix
    {Canonical : Type} (F : Formatter Canonical)
    (ids : list string) (kwargs : PyDict) (w : World) :
  ∃ n,
    n ≤ length ids
    ∧ snd (GDAX.cancel_order F ids kwargs w)
      = extend w (delete_request kwargs <$> take n ids)
    ∧ Forall (λ ev, authenticated ev = true) (delete_request kwargs <$> take n ids).
Proof.
  assert (Hloop : ∀ ids resps w, ∃ n,
            n ≤ length ids
            ∧ snd (GDAX.cancel_order_loop ids kwargs resps w)
              = extend w (delete_request kwargs <$> take n ids)).
  { clear. induction ids as [|oid ids IH]; intros resps w.
    - exists 0. split; [done|]. simpl. by rewrite extend_nil.
    - simpl. unfold bind at 1. unfold GDAX.request, RESTInterface_request, perform.
      fold (delete_request kwargs oid).
      destruct (answer w (trace w) (delete_request kwargs oid)) as [r|e].
      + destruct (IH (resps ++ [r]) (extend w [delete_request kwargs oid]))
          as (n & Hn & Hrun).
        exists (S n). split; [simpl; lia|].
        rewrite Hrun, extend_extend. done.
      + exists 1. split; [simpl; lia|]. simpl. by destruct ids. }
  destruct (Hloop ids [] w) as (n & Hn & Hrun).
  exists n. split; [done|]. split.
  - unfold GDAX.cancel_order, format_with, GDAX.cancel_order_body, bind.
    destruct (GDAX.cancel_order_loop ids kwargs [] w) as [[resps|e] w'];
      simpl in Hrun; subst w'; [|done].
    destruct (1 <? length resps); [done|]. by destruct (resps !! 0).
  - apply Forall_fmap, Forall_forall. by intros oid _.
Qed.

(** ** Which way the requests of the Lykke interface go *)

Lemma requests_request_direct_get (url : string) :
  one_direct_get (requests_request "GET" url ∅) url None.
Proof.
  eexists. split; [apply perform_issues_only|]. by simplify_map_eq.
Qed.

Lemma requests_request_direct_get_params (url : string) (params : PyDict) :
  one_direct_get (requests_request "GET" url {["params" := VDict params]}) url
    (Some (VDict params)).
Proof.
  eexists. split; [apply perform_issues_only|]. by simplify_map_eq.
Qed.

Lemma format_with_direct_get {Canonical : Type} (F : Formatter Canonical)
    (method : string) (m : Py Response) (url : string) (params : option PyVal) :
  one_direct_get m url params →
  one_direct_get (format_with F method (one m)) url params.
Proof.
  intros (kwargs & Hm & H). exists kwargs. split; [|done].
  by apply format_with_issues_only.
Qed.

(** X12. The market data of Lykke never goes through the REST backend. For
    a supported pair, [ticker] and [order_book], and [assets], each issue one
    GET straight to the public API, without headers; [ticker] drops the
    caller's keyword arguments, [order_book] sends them as query parameters.
    The account data ([wallet], [trade_history], [orders]) goes to the
    backend, one request each, with authentication asked for. *)
Theorem lykke_public_data_bypasses_backend
    {Canonical : Type} (F : Formatter Canonical) (self : Lykke.t)
    (pair : string) (status : PyVal) (kwargs : PyDict) :
  pair ∈ supported_pairs (Lykke.interface self) →
  one_direct_get (Lykke.ticker F self pair kwargs)
    (Lykke.public_api self +:+ "Market/" +:+ to_native (Lykke.interface self) pair)
    None
  ∧ one_direct_get (Lykke.order_book F self pair kwargs)
      (Lykke.public_api self +:+ "OrderBook/"
       +:+ to_native (Lykke.interface self) pair)
      (Some (VDict kwargs))
  ∧ one_direct_get (Lykke_endpoints.assets self)
      (Lykke.public_api self +:+ "Assets/dictionary") None
  ∧ one_authenticated_request (Lykke_endpoints.wallet F kwargs)
  ∧ one_authenticated_request (Lykke_endpoints.trade_history kwargs)
  ∧ one_authenticated_request (Lykke_endpoints.orders status kwargs).
Proof.
  intros Hpair. split; [|split; [|split; [|split; [|split]]]].
  - unfold Lykke.ticker. rewrite (check_and_format_pair_supported _ _ _ Hpair).
    apply format_with_direct_get, requests_request_direct_get.
  - unfold Lykke.order_book. rewrite (check_and_format_pair_supported _ _ _ Hpair).
    apply format_with_direct_get, requests_request_direct_get_params.
  - apply requests_request_direct_get.
  - apply format_with_authenticated, perform_authenticated.
  - apply perform_authenticated.
  - apply perform_authenticated.
Qed.

Lemma lykke_public_data_bypasses_backend_witness :
  let self := Lykke.__init__ ["BTCUSD"] id in
  one_direct_get (Lykke.ticker no_formatter self "BTCUSD" {["depth" := VInt 3]})
    "https://public-api.lykke.com/api/Market/BTCUSD" None.
Proof.
  assert (Hpair : "BTCUSD" ∈ supported_pairs
                    (Lykke.interface (Lykke.__init__ ["BTCUSD"] id)))
    by by_evaluation.
  exact (proj1 (lykke_public_data_bypasses_backend no_formatter
                  (Lykke.__init__ ["BTCUSD"] id) "BTCUSD" VNone
                  {["depth" := VInt 3]} Hpair)).
Defined.

(** ** When [LykkeREST.sign_request_kwargs] raises *)

(** X13. [LykkeREST.sign_request_kwargs] raises in exactly three cases:
    the base class's assembly raises, and that exception passes through;
    the assembled request has no ['params'] entry, which gives
    [KeyError('params')]; or its ['params'] is falsy and it has no ['data']
    entry, which gives [KeyError('data')]. *)
Theorem sign_request_kwargs_raises_iff
    (super_sign : RESTAPI → string → PyDict → Outcome PyDict)
    (self : RESTAPI) (endpoint : string) (kwargs : PyDict) (e : PyExc) :
  LykkeREST.sign_request_kwargs super_sign self endpoint kwargs = Raise e
  ↔ super_sign self endpoint kwargs = Raise e
    ∨ (∃ base, super_sign self endpoint kwargs = Return base
               ∧ base !! "params" = None ∧ e = KeyError "params")
    ∨ (∃ base params, super_sign self endpoint kwargs = Return base
                      ∧ base !! "params" = Some params
                      ∧ truthy params = false
                      ∧ base !! "data" = None ∧ e = KeyError "data").
Proof.
  unfold LykkeREST.sign_request_kwargs.
  destruct (super_sign self endpoint kwargs) as [base|e0]; simpl.
  2: { split; [intros [= ->]; by left|].
       intros [[= ->]|[(base & [=] & _)|(base & params & [=] & _)]]. done. }
  unfold dict_pop. rewrite lookup_insert_ne by done.
  destruct (base !! "params") as [params|] eqn:Hparams; simpl.
  2: { split.
       - intros [= <-]. right. left. by exists base.
       - intros [[=]|[(b & [= <-] & _ & ->)|(b & p & [= <-] & Hp & _)]]; [done|].
         by rewrite Hparams in Hp. }
  destruct (truthy params) eqn:Htruthy; simpl.
  { split; [done|].
    intros [[=]|[(b & [= <-] & Hp & _)|(b & p & [= <-] & Hp & Ht & _)]].
    - by rewrite Hparams in Hp.
    - rewrite Hparams in Hp. injection Hp as <-. by rewrite Htruthy in Ht. }
  unfold dict_getitem. rewrite lookup_delete_ne, lookup_insert_ne by done.
  destruct (base !! "data") as [data|] eqn:Hdata; simpl.
  - split; [done|].
    intros [[=]|[(b & [= <-] & Hp & _)|(b & p & [= <-] & _ & _ & Hd & _)]].
    + by rewrite Hparams in Hp.
    + by rewrite Hdata in Hd.
  - split.
    + intros [= <-]. right. right. by exists base, params.
    + intros [[=]|[(b & [= <-] & Hp & _)|(b & p & [= <-] & _ & _ & _ & ->)]]; [|done].
      by rewrite Hparams in Hp.
Qed.

Lemma sign_request_kwargs_raises_iff_witness :
  let self := LykkeREST.__init__ None (Some "my-key") None None 5 None in
  LykkeREST.sign_request_kwargs bare_assembly self "Wallets" {["data" := VDict ∅]}
  = Raise (KeyError "params")
  ∧ LykkeREST.sign_request_kwargs bare_assembly self "Wallets" {["params" := VDict ∅]}
    = Raise (KeyError "data").
Proof.
  split.
  - apply (proj2 (sign_request_kwargs_raises_iff bare_assembly _ "Wallets"
                    {["data" := VDict ∅]} (KeyError "params"))).
    right. left. exists {["data" := VDict ∅]}. by vm_compute.
  - apply (proj2 (sign_request_kwargs_raises_iff bare_assembly _ "Wallets"
                    {["params" := VDict ∅]} (KeyError "data"))).
    right. right. exists {["params" := VDict ∅]}, (VDict ∅). by vm_compute.
Defined.

(** ** What [LykkeREST.__init__] hands to the base class *)

Lemma str_or_nonempty (o : option string) (d : string) :
  nonempty (Some d) = true → nonempty (Some (str_or o d)) = true.
Proof.
  intros Hd. unfold str_or. destruct o as [s|]; [|done].
  destruct (String.eqb s "") eqn:Hs; [done|]. simpl. by rewrite Hs.
Qed.

Lemma str_or_keeps (o : option string) (d : string) :
  nonempty o = true → Some (str_or o d) = o.
Proof.
  unfold str_or. destruct o as [s|]; [|done]. simpl.
  by destruct (String.eqb s "").
Qed.

(** X14. A [LykkeREST] always ends up with a non-empty address and a
    non-empty secret: an address or secret the caller gives is kept when it
    is non-empty, and replaced by the default address of the HFT API or by
    the placeholder otherwise. The key, version, timeout and config are
    handed on as they are given. *)
Theorem lykke_rest_init_fields
    (addr0 key0 secret0 version0 : option string) (timeout0 : Z)
    (config0 : option string) :
  let api := LykkeREST.__init__ addr0 key0 secret0 version0 timeout0 config0 in
  nonempty (addr api) = true
  ∧ nonempty (secret api) = true
  ∧ addr api = (if nonempty addr0 then addr0
                else Some "https://hft-api.lykke.com/api")
  ∧ secret api = (if nonempty secret0 then secret0 else Some "not applicable")
  ∧ key api = key0 ∧ version api = version0
  ∧ timeout api = timeout0 ∧ config api = config0.
Proof.
  simpl. split; [by apply str_or_nonempty|]. split; [by apply str_or_nonempty|].
  split; [|split; [|done]].
  - destruct (nonempty addr0) eqn:Ha; [by apply str_or_keeps|].
    unfold str_or. destruct addr0 as [s|]; [|done]. simpl in Ha.
    by destruct (String.eqb s "").
  - destruct (nonempty secret0) eqn:Hs; [by apply str_or_keeps|].
    unfold str_or. destruct secret0 as [s|]; [|done]. simpl in Hs.
    by destruct (String.eqb s "").
Qed.

(** ** [Lykke.trades]: the parameters sent are final *)

Lemma default_is_set (kwargs : PyDict) (k : string) (dflt : PyVal) :
  is_none dflt = false →
  is_none (dict_get
             (if is_none (dict_get kwargs k)
              then dict_update kwargs {[k := dflt]} else kwargs) k) = false.
Proof.
  intros Hdflt. destruct (is_none (dict_get kwargs k)) eqn:Hk; [|done].
  rewrite dict_update_singleton. unfold dict_get. by rewrite lookup_insert_eq.
Qed.

Lemma default_keeps_others (kwargs : PyDict) (k k' : string) (dflt : PyVal) :
  k' ≠ k →
  dict_get (if is_none (dict_get kwargs k)
            then dict_update kwargs {[k := dflt]} else kwargs) k'
  = dict_get kwargs k'.
Proof.
  intros Hk. destruct (is_none (dict_get kwargs k)); [|done].
  rewrite dict_update_singleton. unfold dict_get. by rewrite lookup_insert_ne.
Qed.

(** X15. The query parameters [Lykke.trades] sends for a supported pair never
    hold [None] under ['skip'] or ['take'], and they are final: a call that
    is given them as its keyword arguments sends them unchanged. *)
Theorem lykke_trades_params_final
    {Canonical : Type} (F : Formatter Canonical) (self : Lykke.t)
    (pair : string) (kwargs : PyDict) (w : World) :
  pair ∈ supported_pairs (Lykke.interface self) →
  ∃ params : PyDict,
    snd (Lykke.trades F self pair kwargs w)
    = extend w
        [Http "GET"
           (<["url" := VStr (Lykke.public_api self +:+ "Trades/"
                             +:+ to_native (Lykke.interface self) pair)]>
              {["params" := VDict params]})]
    ∧ is_none (dict_get params "skip") = false
    ∧ is_none (dict_get params "take") = false
    ∧ ∀ w',
        snd (Lykke.trades F self pair params w')
        = extend w'
            [Http "GET"
               (<["url" := VStr (Lykke.public_api self +:+ "Trades/"
                                 +:+ to_native (Lykke.interface self) pair)]>
                  {["params" := VDict params]})].
Proof.
  intros Hpair.
  unfold Lykke.trades. rewrite !(check_and_format_pair_supported _ _ _ Hpair).
  set (kw1 := if is_none (dict_get kwargs "skip")
              then dict_update kwargs {["skip" := VInt 0]} else kwargs).
  set (kw2 := if is_none (dict_get kw1 "take")
              then dict_update kw1 {["take" := VInt 1000]} else kw1).
  assert (Hskip : is_none (dict_get kw2 "skip") = false).
  { unfold kw2. rewrite default_keeps_others by done. by apply default_is_set. }
  assert (Htake : is_none (dict_get kw2 "take") = false) by by apply default_is_set.
  exists kw2. split.
  { apply (format_with_issues_only F "trades"
             (Lykke.trades_body self (to_native (Lykke.interface self) pair) kwargs)).
    unfold Lykke.trades_body. fold kw1. fold kw2. apply perform_issues_only. }
  split; [done|]. split; [done|]. intros w'.
  rewrite (check_and_format_pair_supported _ _ _ Hpair).
  apply (format_with_issues_only F "trades"
           (Lykke.trades_body self (to_native (Lykke.interface self) pair) kw2)).
  unfold Lykke.trades_body. rewrite Hskip, Htake. apply perform_issues_only.
Qed.

Lemma lykke_trades_params_final_witness :
  let self := Lykke.__init__ ["BTCUSD"] id in
  ∃ params : PyDict,
    snd (Lykke.trades no_formatter self "BTCUSD" {["skip" := VNone]} agreeable)
    = extend agreeable
        [Http "GET"
           (<["url" := VStr "https://public-api.lykke.com/api/Trades/BTCUSD"]>
              {["params" := VDict params]})]
    ∧ is_none (dict_get params "skip") = false
    ∧ is_none (dict_get params "take") = false.
Proof.
  assert (Hpair : "BTCUSD" ∈ supported_pairs
                    (Lykke.interface (Lykke.__init__ ["BTCUSD"] id)))
    by by_evaluation.
  destruct (lykke_trades_params_final no_formatter (Lykke.__init__ ["BTCUSD"] id)
              "BTCUSD" {["skip" := VNone]} agreeable Hpair)
    as (params & Hrun & Hskip & Htake & _).
  exists params. split; [exact Hrun|]. split; [exact Hskip|exact Htake].
Defined.

(** ** The public endpoints of GDAX *)

(** X16. For a supported pair, [ticker], [order_book] and [trades] of the
    GDAX interface each issue exactly one GET for the pair in native syntax,
    under ['products/'], with the caller's keyword arguments as query
    parameters and without asking for authentication. *)
Theorem gdax_public_endpoints_requests
    {Canonical : Type} (F : Formatter Canonical) (self : RESTInterface)
    (pair : string) (kwargs : PyDict) :
  pair ∈ supported_pairs self →
  issues_only (GDAX.ticker F self pair kwargs)
    (ApiRequest "GET" ("products/" +:+ to_native self pair +:+ "/ticker") false
       {["params" := VDict kwargs]})
  ∧ issues_only (GDAX.order_book F self pair kwargs)
      (ApiRequest "GET" ("products/" +:+ to_native self pair +:+ "/book") false
         {["params" := VDict kwargs]})
  ∧ issues_only (GDAX.trades F self pair kwargs)
      (ApiRequest "GET" ("products/" +:+ to_native self pair +:+ "/trades") false
         {["params" := VDict kwargs]}).
Proof.
  intros Hpair. unfold GDAX.ticker, GDAX.order_book, GDAX.trades.
  rewrite !(check_and_format_pair_supported _ _ _ Hpair).
  repeat split; apply format_with_issues_only, perform_issues_only.
Qed.

Lemma gdax_public_endpoints_requests_witness :
  let gdax := mkInterface "GDAX" ["BTC-USD"; "ETH-USD"] id in
  issues_only (GDAX.order_book no_formatter gdax "ETH-USD" {["level" := VInt 2]})
    (ApiRequest "GET" "products/ETH-USD/book" false
       {["params" := VDict {["level" := VInt 2]}]}).
Proof.
  assert (Hpair : "ETH-USD" ∈ supported_pairs
                    (mkInterface "GDAX" ["BTC-USD"; "ETH-USD"] id))
    by by_evaluation.
  exact (proj1 (proj2 (gdax_public_endpoints_requests no_formatter
                         (mkInterface "GDAX" ["BTC-USD"; "ETH-USD"] id)
                         "ETH-USD" {["level" := VInt 2]} Hpair))).
Defined.
